(** * BookmarkStash: a shallow embedding of [bookmark_manager.py]

    The development follows the layout of the program:

    - [PyStr]: the [str] methods the program calls ([lower], [strip],
      [in]), on strings whose characters are the code points U+0000 to
      U+00FF;
    - [Json]: the text [json.dump] writes for a collection and the decoder
      [json.load] runs on it;
    - [Url]: the part of [urllib.parse.urlparse] that [_validate_url] reads;
    - the world the program runs in (files, standard output, I/O faults)
      and the [IO] monad that threads it;
    - the methods of [BookmarkManager] and the entry point [main];
    - the properties of the specification, one theorem per claim. *)

From Stdlib Require Import Ascii String List Bool Arith NArith Lia.
From stdpp Require Import base option list gmap strings sorting.

(** ** Python strings *)

Module PyStr.

(** [s == ""], the test behind [not s]. *)
Definition is_empty (s : string) : bool :=
  match s with
  | EmptyString => true
  | String _ _ => false
  end.

Definition between (lo hi n : N) : bool := ((lo <=? n) && (n <=? hi))%N.

(** [str.lower] on one code point below 256: [A-Z] and the Latin-1
    capitals U+00C0 to U+00DE, the multiplication sign U+00D7 apart, move
    up by 32. *)
Definition char_lower (c : ascii) : ascii :=
  let n := N_of_ascii c in
  if between 65 90 n || (between 192 222 n && negb (n =? 215)%N)
  then ascii_of_N (n + 32)
  else c.

Fixpoint lower (s : string) : string :=
  match s with
  | EmptyString => EmptyString
  | String c r => String (char_lower c) (lower r)
  end.

(** [str.isspace] on one code point below 256. *)
Definition isspace (c : ascii) : bool :=
  let n := N_of_ascii c in
  between 9 13 n || between 28 32 n || (n =? 133)%N || (n =? 160)%N.

Fixpoint lstrip (s : string) : string :=
  match s with
  | EmptyString => EmptyString
  | String c r => if isspace c then lstrip r else s
  end.

Fixpoint rstrip (s : string) : string :=
  match s with
  | EmptyString => EmptyString
  | String c r =>
      match rstrip r with
      | EmptyString => if isspace c then EmptyString else String c EmptyString
      | r' => String c r'
      end
  end.

(** [s.strip()] *)
Definition strip (s : string) : string := rstrip (lstrip s).

(** [s.startswith(q)] *)
Fixpoint startswith (s q : string) : bool :=
  match q, s with
  | EmptyString, _ => true
  | String _ _, EmptyString => false
  | String a q', String b s' => if ascii_dec a b then startswith s' q' else false
  end.

(** [q in s] *)
Fixpoint contains (s q : string) : bool :=
  startswith s q ||
  match s with
  | EmptyString => false
  | String _ r => contains r q
  end.

(** What "[s] contains [q] as a substring" means. *)
Definition substring_of (q s : string) : Prop :=
  exists pre post, s = pre +:+ q +:+ post.

(** [sep.join(l)] *)
Fixpoint join (sep : string) (l : list string) : string :=
  match l with
  | [] => ""
  | [x] => x
  | x :: r => x +:+ sep +:+ join sep r
  end.

End PyStr.

(** ** The data model *)

(** A bookmark is the dict [{"url": .., "title": .., "tag": ..}]. *)
Record Bookmark : Type := mkBookmark {
  url : string;
  title : string;
  tag : string
}.

#[global] Instance Bookmark_eq_dec : EqDecision Bookmark.
Proof. solve_decision. Defined.

(** [self.bookmarks]: a Python list, in insertion order. *)
Abbreviation Collection := (list Bookmark).

(** [a.lower() == b.lower()] *)
Definition same_ci (a b : string) : bool :=
  bool_decide (PyStr.lower a = PyStr.lower b).

(** The key of a record: its url, lowered. *)
Definition url_key (b : Bookmark) : string := PyStr.lower (url b).

(** No two records share a url under case-insensitive comparison. *)
Definition url_unique (c : Collection) : Prop := NoDup (url_key <$> c).

(** ** JSON text of a collection *)

Module Json.

Local Arguments String.append : simpl nomatch.

Definition quote : ascii := "034"%char.
Definition backslash : ascii := "092"%char.
Definition newline : ascii := "010"%char.

Definition str1 (c : ascii) : string := String c EmptyString.

(** *** [json.dump(obj, f, indent=2, ensure_ascii=False)] *)

(** One lower-case hexadecimal digit, as [format(i, "04x")] prints it. *)
Definition hexdigit (n : N) : ascii :=
  if (n <? 10)%N then ascii_of_N (48 + n) else ascii_of_N (87 + n).

(** [ESCAPE_DCT]: the quote and the backslash get a backslash, the control
    characters their short escape or [\u00XX]; every other character,
    non-ASCII ones included, is written as it is. *)
Definition escape (c : ascii) : string :=
  let n := N_of_ascii c in
  if (n =? 34)%N then String backslash (str1 quote)
  else if (n =? 92)%N then String backslash (str1 backslash)
  else if (n =? 8)%N then String backslash "b"
  else if (n =? 12)%N then String backslash "f"
  else if (n =? 10)%N then String backslash "n"
  else if (n =? 13)%N then String backslash "r"
  else if (n =? 9)%N then String backslash "t"
  else if (n <? 32)%N then
    String backslash
      (String "u" (String "0" (String "0"
        (String (hexdigit (n / 16)) (str1 (hexdigit (n mod 16)))))))
  else str1 c.

Fixpoint escape_all (s : string) : string :=
  match s with
  | EmptyString => EmptyString
  | String c r => escape c +:+ escape_all r
  end.

(** [encode_basestring] *)
Definition encode_basestring (s : string) : string :=
  String quote (escape_all s +:+ str1 quote).

(** [s * n] *)
Fixpoint repeat_str (s : string) (n : nat) : string :=
  match n with
  | O => EmptyString
  | S n => s +:+ repeat_str s n
  end.

(** The line break and indentation at nesting [level]. *)
Definition newline_indent (level : nat) : string :=
  String newline (repeat_str "  " level).

Definition dump_member (key value : string) : string :=
  encode_basestring key +:+ ": " +:+ encode_basestring value.

(** A record is a dict with the keys [url], [title], [tag] in that order. *)
Definition dump_bookmark (b : Bookmark) : string :=
  "{" +:+ newline_indent 2 +:+ dump_member "url" (url b) +:+
  "," +:+ newline_indent 2 +:+ dump_member "title" (title b) +:+
  "," +:+ newline_indent 2 +:+ dump_member "tag" (tag b) +:+
  newline_indent 1 +:+ "}".

Fixpoint dump_items (c : Collection) : string :=
  match c with
  | [] => EmptyString
  | [b] => dump_bookmark b
  | b :: r => dump_bookmark b +:+ "," +:+ newline_indent 1 +:+ dump_items r
  end.

Definition dump (c : Collection) : string :=
  match c with
  | [] => "[]"
  | _ => "[" +:+ newline_indent 1 +:+ dump_items c +:+ newline_indent 0 +:+ "]"
  end.

(** *** [json.load(f)] *)

(** [WHITESPACE]: space, tab, line feed, carriage return. *)
Definition is_ws (c : ascii) : bool :=
  let n := N_of_ascii c in
  (n =? 32)%N || (n =? 9)%N || (n =? 10)%N || (n =? 13)%N.

Fixpoint skip_ws (s : string) : string :=
  match s with
  | EmptyString => EmptyString
  | String c r => if is_ws c then skip_ws r else s
  end.

Definition hexval (c : ascii) : option N :=
  let n := N_of_ascii c in
  if PyStr.between 48 57 n then Some (n - 48)%N
  else if PyStr.between 97 102 n then Some (n - 87)%N
  else if PyStr.between 65 70 n then Some (n - 55)%N
  else None.

(** The code point of [\uXXXX]; a code point from 256 on has no character
    in this model. *)
Definition unicode_escape (a b c d : ascii) : option ascii :=
  h3 ← hexval a; h2 ← hexval b; h1 ← hexval c; h0 ← hexval d;
  let n := (((h3 * 16 + h2) * 16 + h1) * 16 + h0)%N in
  if (n <? 256)%N then Some (ascii_of_N n) else None.

Definition simple_escape (e : ascii) : option ascii :=
  let n := N_of_ascii e in
  if (n =? 34)%N then Some quote
  else if (n =? 92)%N then Some backslash
  else if (n =? 47)%N then Some "/"%char
  else if (n =? 98)%N then Some "008"%char
  else if (n =? 102)%N then Some "012"%char
  else if (n =? 110)%N then Some "010"%char
  else if (n =? 114)%N then Some "013"%char
  else if (n =? 116)%N then Some "009"%char
  else None.

Definition cons_fst (c : ascii) (r : option (string * string)) :
    option (string * string) :=
  '(s, rest) ← r; Some (String c s, rest).

(** [scanstring] in strict mode, from just after the opening quote: the
    decoded string and the text after the closing quote. *)
Fixpoint scanstring (s : string) : option (string * string) :=
  match s with
  | EmptyString => None
  | String c r =>
      if (N_of_ascii c =? 34)%N then Some (EmptyString, r)
      else if (N_of_ascii c =? 92)%N then
        match r with
        | EmptyString => None
        | String e r1 =>
            if (N_of_ascii e =? 117)%N then
              match r1 with
              | String h3 (String h2 (String h1 (String h0 r2))) =>
                  match unicode_escape h3 h2 h1 h0 with
                  | Some u => cons_fst u (scanstring r2)
                  | None => None
                  end
              | _ => None
              end
            else
              match simple_escape e with
              | Some u => cons_fst u (scanstring r1)
              | None => None
              end
        end
      else if (N_of_ascii c <? 32)%N then None
      else cons_fst c (scanstring r)
  end.

(** The next character must be [c]. *)
Definition expect (c : ascii) (s : string) : option string :=
  match s with
  | String d r => if ascii_dec c d then Some r else None
  | EmptyString => None
  end.

(** One [key: value] pair whose value is a string, from the opening quote
    of the key; white space after the value is skipped. *)
Definition parse_pair (s : string) : option ((string * string) * string) :=
  r ← expect quote s;
  '(key, r) ← scanstring r;
  r ← expect ":" (skip_ws r);
  r ← expect quote (skip_ws r);
  '(value, r) ← scanstring r;
  Some ((key, value), skip_ws r).

(** The loop of [JSONObject], from the first key on. *)
Fixpoint parse_pairs (fuel : nat) (s : string) :
    option (list (string * string) * string) :=
  match fuel with
  | O => None
  | S fuel =>
      '(kv, r) ← parse_pair s;
      match r with
      | String "}" r => Some ([kv], r)
      | String "," r =>
          '(kvs, r) ← parse_pairs fuel (skip_ws r);
          Some (kv :: kvs, r)
      | _ => None
      end
  end.

(** [JSONObject], from just after the opening brace. *)
Definition parse_object (fuel : nat) (s : string) :
    option (list (string * string) * string) :=
  match skip_ws s with
  | String "}" r => Some ([], r)
  | s => parse_pairs fuel s
  end.

(** The dict built from the pairs: a later pair replaces an earlier one
    with the same key. *)
Definition dict_of_pairs (kvs : list (string * string)) : gmap string string :=
  list_to_map (reverse kvs).

(** The record a dict stands for, when its keys are exactly [url], [title]
    and [tag]. *)
Definition bookmark_of_dict (d : gmap string string) : option Bookmark :=
  u ← d !! "url"; t ← d !! "title"; g ← d !! "tag";
  if decide (size d = 3) then Some (mkBookmark u t g) else None.

Definition parse_bookmark (fuel : nat) (s : string) : option (Bookmark * string) :=
  r ← expect "{" s;
  '(kvs, r) ← parse_object fuel r;
  b ← bookmark_of_dict (dict_of_pairs kvs);
  Some (b, skip_ws r).

(** The loop of [JSONArray], from the first element on. *)
Fixpoint parse_items (fuel : nat) (s : string) : option (Collection * string) :=
  match fuel with
  | O => None
  | S fuel' =>
      '(b, r) ← parse_bookmark fuel s;
      match r with
      | String "]" r => Some ([b], r)
      | String "," r =>
          '(bs, r) ← parse_items fuel' (skip_ws r);
          Some (b :: bs, r)
      | _ => None
      end
  end.

(** [JSONArray], from just after the opening bracket. *)
Definition parse_array (fuel : nat) (s : string) : option (Collection * string) :=
  match skip_ws s with
  | String "]" r => Some ([], r)
  | s => parse_items fuel s
  end.

(** [json.loads]: [None] stands for [JSONDecodeError].  The decoder covers
    the documents that denote a collection: an array of objects whose
    members are the strings [url], [title] and [tag]; any other text is
    refused. *)
Definition load (text : string) : option Collection :=
  r ← expect "[" (skip_ws text);
  '(c, r) ← parse_array (String.length text) r;
  match skip_ws r with
  | EmptyString => Some c
  | _ => None
  end.

End Json.

(** ** URL parsing *)

Module Url.

(** The two fields of the result of [urlparse] that the program reads. *)
Record ParseResult : Type := mkParseResult {
  scheme : string;
  netloc : string
}.

(** [scheme_chars]: ASCII letters, digits, [+], [-] and [.]. *)
Definition is_scheme_char (c : ascii) : bool :=
  let n := N_of_ascii c in
  PyStr.between 97 122 n || PyStr.between 65 90 n || PyStr.between 48 57 n ||
  (n =? 43)%N || (n =? 45)%N || (n =? 46)%N.

(** Tab, line feed and carriage return are removed from the url first. *)
Definition is_unsafe (c : ascii) : bool :=
  let n := N_of_ascii c in (n =? 9)%N || (n =? 10)%N || (n =? 13)%N.

Fixpoint remove_unsafe (s : string) : string :=
  match s with
  | EmptyString => EmptyString
  | String c r => if is_unsafe c then remove_unsafe r else String c (remove_unsafe r)
  end.

(** The text before the first colon and the text after it, when every
    character before that colon is a scheme character. *)
Fixpoint split_scheme (s : string) : option (string * string) :=
  match s with
  | EmptyString => None
  | String c r =>
      if (N_of_ascii c =? 58)%N then Some (EmptyString, r)
      else if is_scheme_char c then Json.cons_fst c (split_scheme r)
      else None
  end.

(** [_splitnetloc]: up to the first [/], [?] or [#]. *)
Fixpoint take_netloc (s : string) : string :=
  match s with
  | EmptyString => EmptyString
  | String c r =>
      let n := N_of_ascii c in
      if (n =? 47)%N || (n =? 63)%N || (n =? 35)%N then EmptyString
      else String c (take_netloc r)
  end.

Fixpoint has_char (c : ascii) (s : string) : bool :=
  match s with
  | EmptyString => false
  | String d r => if ascii_dec c d then true else has_char c r
  end.

(** [urlsplit] as CPython 3.10.0 runs it, for the scheme and the network
    location; [None] stands for the [ValueError] of an unbalanced bracket.
    The NFKC check of the location raises for no code point below 256.
    Later releases also drop leading control characters and spaces, want a
    letter first in the scheme, and check what stands between brackets. *)
Definition urlsplit (url : string) : option ParseResult :=
  let url := remove_unsafe url in
  let '(scheme, url) :=
    match split_scheme url with
    | Some (String c p, rest) => (PyStr.lower (String c p), rest)
    | _ => (EmptyString, url)
    end in
  match url with
  | String "/" (String "/" r) =>
      let netloc := take_netloc r in
      if xorb (has_char "[" netloc) (has_char "]" netloc) then None
      else Some (mkParseResult scheme netloc)
  | _ => Some (mkParseResult scheme EmptyString)
  end.

End Url.

(** [urllib.parse.urlparse] belongs to the Python library, not to the
    program: the program is stated over any parser, and [Url.urlsplit] is
    the instance used to run it. *)
Class UrlParser : Type := urlparse : string -> option Url.ParseResult.

#[global] Instance cpython_urlparse : UrlParser := Url.urlsplit.

(** ** The world: files, standard output, I/O faults *)

(** What the program prints, one constructor per [print] statement; the
    arguments are the values the message interpolates. *)
Inductive Message : Type :=
  (* _load_bookmarks *)
  | ErrLoad | StartingEmpty
  (* _save_bookmarks *)
  | ErrSave
  (* add_bookmark *)
  | ErrInvalidUrl (url : string)
  | ErrDuplicateUrl (url : string)
  | ErrEmptyTitle
  | ErrEmptyTag
  | Added | AddedTitle (title : string) | AddedUrl (url : string) | AddedTag (tag : string)
  (* list_bookmarks *)
  | NoneFoundWith (filter_type : string) (filter_value : option string)
  | NoBookmarks
  | FoundWith (n : nat) (filter_type : string) (filter_value : option string)
  | FoundAll (n : nat)
  | Rule
  | ItemTitle (i : nat) (title : string) | ItemUrl (url : string) | ItemTag (tag : string)
  | Blank
  (* search_bookmarks, list_tags, list_titles *)
  | ErrEmptyQuery
  | Line (s : string)
  (* delete_bookmark *)
  | ErrEmptyIdentifier (delete_type : string)
  | ErrNotFound (delete_type identifier : string)
  | FoundSeveral (n : nat) (identifier : string)
  | Candidate (i : nat) (url tag : string)
  | AllWillBeDeleted
  | Deleted (deleted_count : nat)
  | DeletedItem (title url : string)
  | ErrNotDeleted
  (* show_stats *)
  | StatsHeader | StatsTotal (n : nat) | StatsUniqueTags (n : nat)
  | StatsDataFile (data_file : string) | StatsTags (tags : string)
  (* main *)
  | Help.

(** How writing a file goes wrong, if it does: [open] raises and the file is
    left alone, or the write breaks after [n] characters of the text. *)
Inductive WriteFault : Type :=
  | NoFault
  | OpenRefused
  | WriteCut (n : nat).

Record World : Type := mkWorld {
  home : string;                 (* os.path.expanduser("~") *)
  fs : gmap string string;       (* the text of each file that exists *)
  stdout : list Message;
  read_fault : bool;             (* opening a file for reading raises IOError *)
  write_fault : WriteFault
}.

Definition set_fs (f : gmap string string) (w : World) : World :=
  mkWorld (home w) f (stdout w) (read_fault w) (write_fault w).

Definition set_stdout (o : list Message) (w : World) : World :=
  mkWorld (home w) (fs w) o (read_fault w) (write_fault w).

(** Computations that read and change the world. *)
Definition IO (A : Type) : Type := World -> A * World.

#[global] Instance IO_ret : MRet IO := fun A a w => (a, w).
#[global] Instance IO_bind : MBind IO :=
  fun A B k m w => let '(a, w') := m w in k a w'.

Definition print (m : Message) : IO unit :=
  fun w => (tt, set_stdout (stdout w ++ [m]) w).

(** A loop whose body only prints. *)
Definition print_all (ms : list Message) : IO unit :=
  fun w => (tt, set_stdout (stdout w ++ ms) w).

Definition get_home : IO string := fun w => (home w, w).

(** [os.path.exists(path)] *)
Definition path_exists (path : string) : IO bool :=
  fun w => (bool_decide (is_Some (fs w !! path)), w).

(** [open(path, "r").read()]; [None] stands for [IOError]. *)
Definition read_text (path : string) : IO (option string) :=
  fun w => (if read_fault w then None else fs w !! path, w).

(** [open(path, "w").write(text)]; [false] stands for [IOError]. *)
Definition write_text (path text : string) : IO bool :=
  fun w =>
    match write_fault w with
    | NoFault => (true, set_fs (<[path := text]> (fs w)) w)
    | OpenRefused => (false, w)
    | WriteCut n => (false, set_fs (<[path := String.substring 0 n text]> (fs w)) w)
    end.

(** [os.path.join(a, b)] on POSIX. *)
Definition path_join (a b : string) : string :=
  if PyStr.startswith b "/" then b
  else if PyStr.is_empty a || PyStr.startswith (String.rev a) "/" then a +:+ b
  else a +:+ "/" +:+ b.

(** The module-level constant [bookmarks_path]. *)
Definition bookmarks_path : IO string :=
  h ← get_home; mret (path_join h ".bookmarks.json").

(** ** [class BookmarkManager] *)

Record BookmarkManager : Type := mkManager {
  data_file : string;
  bookmarks : Collection
}.

Definition set_bookmarks (c : Collection) (self : BookmarkManager) : BookmarkManager :=
  mkManager (data_file self) c.

(** What a method hands back: its return value and the object after the call. *)
Abbreviation Method A := (IO (A * BookmarkManager)).

Definition _load_bookmarks (data_file : string) : IO Collection :=
  found ← path_exists data_file;
  if negb found then mret []
  else
    text ← read_text data_file;
    match text ≫= Json.load with
    | Some c => mret c
    | None => print ErrLoad;; print StartingEmpty;; mret []
    end.

(** [BookmarkManager(data_file)] *)
Definition init (data_file : string) : IO BookmarkManager :=
  c ← _load_bookmarks data_file; mret (mkManager data_file c).

Definition _save_bookmarks (self : BookmarkManager) : IO bool :=
  ok ← write_text (data_file self) (Json.dump (bookmarks self));
  if (ok : bool) then mret true else print ErrSave;; mret false.

Definition _validate_url `{UrlParser} (url : string) : bool :=
  match urlparse url with
  | Some result =>
      negb (PyStr.is_empty (Url.scheme result)) && negb (PyStr.is_empty (Url.netloc result))
  | None => false
  end.

(** The loop of [_find_bookmark_by_url], [i] being the index of the head. *)
Fixpoint find_url_from (i : nat) (c : Collection) (u : string) : option nat :=
  match c with
  | [] => None
  | bookmark :: rest =>
      if same_ci (url bookmark) u then Some i else find_url_from (S i) rest u
  end.

Definition _find_bookmark_by_url (self : BookmarkManager) (u : string) : option nat :=
  find_url_from 0 (bookmarks self) u.

(** The loop of [_find_bookmarks_by_title]. *)
Fixpoint find_titles_from (i : nat) (c : Collection) (title_lower : string) : list nat :=
  match c with
  | [] => []
  | bookmark :: rest =>
      if bool_decide (PyStr.lower (title bookmark) = title_lower)
      then i :: find_titles_from (S i) rest title_lower
      else find_titles_from (S i) rest title_lower
  end.

Definition _find_bookmarks_by_title (self : BookmarkManager) (t : string) : list nat :=
  find_titles_from 0 (bookmarks self) (PyStr.lower t).

(** The four lines printed after a successful add. *)
Definition added_report (new_bookmark : Bookmark) : list Message :=
  [Added; AddedTitle (title new_bookmark); AddedUrl (url new_bookmark);
   AddedTag (tag new_bookmark)].

Definition add_bookmark `{UrlParser} (self : BookmarkManager) (url title tag : string) :
    Method bool :=
  if negb (_validate_url url) then
    print (ErrInvalidUrl url);; mret (false, self)
  else if bool_decide (is_Some (_find_bookmark_by_url self url)) then
    print (ErrDuplicateUrl url);; mret (false, self)
  else if PyStr.is_empty (PyStr.strip title) then
    print ErrEmptyTitle;; mret (false, self)
  else if PyStr.is_empty (PyStr.strip tag) then
    print ErrEmptyTag;; mret (false, self)
  else
    let new_bookmark := mkBookmark (PyStr.strip url) (PyStr.strip title) (PyStr.strip tag) in
    (* self.bookmarks.append(new_bookmark) *)
    let self := set_bookmarks (bookmarks self ++ [new_bookmark]) self in
    ok ← _save_bookmarks self;
    if (ok : bool) then
      print_all (added_report new_bookmark);; mret (true, self)
    else
      (* self.bookmarks.pop() *)
      mret (false, set_bookmarks (removelast (bookmarks self)) self).

(** The truth value of an [Optional[str]]. *)
Definition truthy (o : option string) : bool :=
  match o with
  | Some s => negb (PyStr.is_empty s)
  | None => false
  end.

(** The string a truthy [Optional[str]] holds. *)
Definition str_of (o : option string) : string := default EmptyString o.

(** The local [bookmarks_to_show] of [list_bookmarks]. *)
Definition bookmarks_to_show (self : BookmarkManager)
    (filter_type filter_value : option string) : Collection :=
  match filter_type, filter_value with
  | Some ft, Some fv =>
      if truthy filter_type && truthy filter_value then
        let filter_value_lower := PyStr.lower fv in
        filter (fun bookmark =>
                  (ft = "title" /\ PyStr.lower (title bookmark) = filter_value_lower) \/
                  (ft = "tag" /\ PyStr.lower (tag bookmark) = filter_value_lower))
               (bookmarks self)
      else bookmarks self
  | _, _ => bookmarks self
  end.

(** The lines of one listed record, numbered [i]. *)
Definition item_lines (i : nat) (bookmark : Bookmark) : list Message :=
  [ItemTitle i (title bookmark); ItemUrl (url bookmark); ItemTag (tag bookmark); Blank].

(** [enumerate(l, i)] with a body that prints. *)
Fixpoint enumerate_from {A : Type} (i : nat) (body : nat -> A -> list Message)
    (l : list A) : list Message :=
  match l with
  | [] => []
  | x :: r => body i x ++ enumerate_from (S i) body r
  end.

Definition list_bookmarks (self : BookmarkManager)
    (filter_type filter_value : option string) : Method unit :=
  let shown := bookmarks_to_show self filter_type filter_value in
  match shown with
  | [] =>
      match filter_type with
      | Some ft =>
          if truthy filter_type then print (NoneFoundWith ft filter_value);; mret (tt, self)
          else print NoBookmarks;; mret (tt, self)
      | None => print NoBookmarks;; mret (tt, self)
      end
  | _ =>
      match filter_type with
      | Some ft =>
          if truthy filter_type then print (FoundWith (length shown) ft filter_value)
          else print (FoundAll (length shown))
      | None => print (FoundAll (length shown))
      end;;
      print Rule;;
      print_all (enumerate_from 1 item_lines shown);;
      mret (tt, self)
  end.

(** What [search_bookmarks] returns: [None], a url, or a list of titles. *)
Inductive SearchResult : Type :=
  | ResNone
  | ResUrl (u : string)
  | ResTitles (titles : list string).

(** The title loop of [search_bookmarks]: the first record whose lowered
    title contains the lowered query ends the search. *)
Fixpoint search_title (query_lower : string) (c : Collection) : option string :=
  match c with
  | [] => None
  | bookmark :: rest =>
      if PyStr.contains (PyStr.lower (title bookmark)) query_lower
      then Some (url bookmark)
      else search_title query_lower rest
  end.

(** The tag loop of [search_bookmarks]: every match is collected. *)
Fixpoint search_tag (query_lower : string) (c : Collection) : list string :=
  match c with
  | [] => []
  | bookmark :: rest =>
      if PyStr.contains (PyStr.lower (tag bookmark)) query_lower
      then title bookmark :: search_tag query_lower rest
      else search_tag query_lower rest
  end.

Definition search_bookmarks (self : BookmarkManager) (query search_type : string) :
    Method SearchResult :=
  if PyStr.is_empty (PyStr.strip query) then
    print ErrEmptyQuery;; mret (ResNone, self)
  else
    let query_lower := PyStr.lower query in
    if bool_decide (search_type = "title") then
      match search_title query_lower (bookmarks self) with
      | Some u => print (Line u);; mret (ResUrl u, self)
      | None => mret (ResNone, self)
      end
    else if bool_decide (search_type = "tag") then
      let tag_matches := search_tag query_lower (bookmarks self) in
      print_all (Line <$> tag_matches);; mret (ResTitles tag_matches, self)
    else mret (ResNone, self).

(** The inner loop of [delete_bookmark]: some record to remove has the url
    of [bookmark], case-insensitively. *)
Definition is_deleted (bookmarks_to_remove : list Bookmark) (bookmark : Bookmark) : bool :=
  existsb (fun b_to_remove => same_ci (url bookmark) (url b_to_remove)) bookmarks_to_remove.

(** The outer loop of [delete_bookmark]: [new_bookmarks], [deleted_count]
    and [deleted_bookmarks_info]. *)
Fixpoint split_deleted (bookmarks_to_remove : list Bookmark) (c : Collection) :
    Collection * nat * list Bookmark :=
  match c with
  | [] => ([], 0, [])
  | bookmark :: rest =>
      let '(new_bookmarks, deleted_count, deleted_bookmarks_info) :=
        split_deleted bookmarks_to_remove rest in
      if is_deleted bookmarks_to_remove bookmark
      then (new_bookmarks, S deleted_count, bookmark :: deleted_bookmarks_info)
      else (bookmark :: new_bookmarks, deleted_count, deleted_bookmarks_info)
  end.

(** The records [delete_bookmark] sets out to remove.  The indices come from
    the two finders, so every [self.bookmarks[idx]] is in range. *)
Definition to_remove (self : BookmarkManager) (identifier delete_type : string) :
    list Bookmark :=
  if bool_decide (delete_type = "url") then
    match _find_bookmark_by_url self identifier with
    | Some index => option_list (bookmarks self !! index)
    | None => []
    end
  else if bool_decide (delete_type = "title") then
    omap (fun idx => bookmarks self !! idx) (_find_bookmarks_by_title self identifier)
  else [].

Definition delete_bookmark (self : BookmarkManager) (identifier delete_type : string) :
    Method bool :=
  if PyStr.is_empty (PyStr.strip identifier) then
    print (ErrEmptyIdentifier delete_type);; mret (false, self)
  else
    let bookmarks_to_remove := to_remove self identifier delete_type in
    match bookmarks_to_remove with
    | [] => print (ErrNotFound delete_type identifier);; mret (false, self)
    | _ =>
        (if bool_decide (delete_type = "title") && (1 <? length bookmarks_to_remove) then
           print (FoundSeveral (length bookmarks_to_remove) identifier);;
           print_all (enumerate_from 1 (fun i b => [Candidate i (url b) (tag b)])
                        bookmarks_to_remove);;
           print AllWillBeDeleted
         else mret tt);;
        let '(new_bookmarks, deleted_count, deleted_bookmarks_info) :=
          split_deleted bookmarks_to_remove (bookmarks self) in
        let original_bookmarks := bookmarks self in
        let self := set_bookmarks new_bookmarks self in
        ok ← _save_bookmarks self;
        if (ok : bool) then
          print (Deleted deleted_count);;
          print_all ((fun b => DeletedItem (title b) (url b)) <$> deleted_bookmarks_info);;
          mret (true, self)
        else
          let self := set_bookmarks original_bookmarks self in
          print ErrNotDeleted;; mret (false, self)
    end.

(** [set(...)] of strings and [sorted(...)] of such a set: strings compare by
    code point, character by character. *)
Definition set_of (l : list string) : gset string := list_to_set l.

Definition sorted (s : gset string) : list string :=
  merge_sort String.le (elements s).

Definition list_tags (self : BookmarkManager) : Method unit :=
  match bookmarks self with
  | [] => print NoBookmarks;; mret (tt, self)
  | _ =>
      let tags := sorted (set_of (tag <$> bookmarks self)) in
      print_all (Line <$> tags);; mret (tt, self)
  end.

Definition list_titles (self : BookmarkManager) : Method unit :=
  match bookmarks self with
  | [] => print NoBookmarks;; mret (tt, self)
  | _ =>
      let titles := sorted (set_of (title <$> bookmarks self)) in
      print_all (Line <$> titles);; mret (tt, self)
  end.

Definition show_stats (self : BookmarkManager) : Method unit :=
  match bookmarks self with
  | [] => print NoBookmarks;; mret (tt, self)
  | _ =>
      let tags := set_of (tag <$> bookmarks self) in
      print StatsHeader;;
      print (StatsTotal (length (bookmarks self)));;
      print (StatsUniqueTags (size tags));;
      print (StatsDataFile (data_file self));;
      (if bool_decide (tags = ∅) then mret tt
       else print (StatsTags (PyStr.join ", " (sorted tags))));;
      mret (tt, self)
  end.

(** ** The command line *)

(** The namespace [parse_args] returns: the chosen sub-command with its own
    arguments, and the top-level [--file]. *)
Inductive Command : Type :=
  | CmdAdd (url title tag : string)
  | CmdList (title tag : option string)
  | CmdSearch (query : string) (tag : bool)
  | CmdDelete (url title : option string)
  | CmdTags
  | CmdTitles
  | CmdStats.

Record Args : Type := mkArgs {
  command : option Command;
  file : string
}.

(** The [--file] default of [create_parser]. *)
Definition default_file : string := "bookmarks.json".

(** Drop the return value of a method, as [main] does. *)
Definition call {A : Type} (m : Method A) : Method unit :=
  '(_, self) ← m; mret (tt, self).

(** The [try] block of [main]. *)
Definition dispatch `{UrlParser} (manager : BookmarkManager) (cmd : Command) : Method unit :=
  match cmd with
  | CmdAdd url title tag => call (add_bookmark manager url title tag)
  | CmdList title tag =>
      if truthy title then list_bookmarks manager (Some "title") title
      else if truthy tag then list_bookmarks manager (Some "tag") tag
      else list_bookmarks manager None None
  | CmdSearch query tag =>
      let search_type := if tag then "tag" else "title" in
      call (search_bookmarks manager query search_type)
  | CmdDelete url title =>
      if truthy url then call (delete_bookmark manager (str_of url) "url")
      else if truthy title then call (delete_bookmark manager (str_of title) "title")
      else mret (tt, manager)
  | CmdTags => list_tags manager
  | CmdTitles => list_titles manager
  | CmdStats => show_stats manager
  end.

(** [main], given the parsed arguments; the result is the manager the
    command ran on, when there was a command. *)
Definition main `{UrlParser} (args : Args) : IO (option BookmarkManager) :=
  match command args with
  | None => print Help;; mret None
  | Some cmd =>
      path ← bookmarks_path;
      manager ← init path;
      '(_, manager) ← dispatch manager cmd;
      mret (Some manager)
  end.

(** * The vocabulary of the properties *)

(** The world after the text of [self] went to its file without a fault. *)
Definition saved_world (self : BookmarkManager) (w : World) : World :=
  set_fs (<[data_file self := Json.dump (bookmarks self)]> (fs w)) w.

(** The record [add_bookmark] builds from its arguments. *)
Definition new_record (url title tag : string) : Bookmark :=
  mkBookmark (PyStr.strip url) (PyStr.strip title) (PyStr.strip tag).

(** The four checks of [add_bookmark] pass. *)
Definition add_accepts `{UrlParser} (self : BookmarkManager) (url title tag : string) : Prop :=
  _validate_url url = true /\
  _find_bookmark_by_url self url = None /\
  PyStr.strip title <> EmptyString /\
  PyStr.strip tag <> EmptyString.

(** One mutation of the manager: an add whose url reads the same with and
    without its surrounding white space, case apart, or any delete. *)
Inductive unpadded_step `{UrlParser} : BookmarkManager -> BookmarkManager -> Prop :=
  | step_add self url title tag w :
      PyStr.lower (PyStr.strip url) = PyStr.lower url ->
      unpadded_step self (add_bookmark self url title tag w).1.2
  | step_delete self identifier delete_type w :
      unpadded_step self (delete_bookmark self identifier delete_type w).1.2.

(** What [delete_bookmark] prints before it removes several records. *)
Definition announcement (identifier delete_type : string) (R : list Bookmark) : list Message :=
  if bool_decide (delete_type = "title") && (1 <? length R)
  then FoundSeveral (length R) identifier ::
       enumerate_from 1 (fun i b => [Candidate i (url b) (tag b)]) R ++ [AllWillBeDeleted]
  else [].

(** A computation that changes nothing of the world but its output. *)
Definition only_prints {A : Type} (m : IO A) : Prop :=
  forall w, exists a out, m w = (a, set_stdout (stdout w ++ out) w).

(** A method call that only prints and hands back the manager it was given. *)
Definition prints_only {A : Type} (self : BookmarkManager) (m : Method A) : Prop :=
  forall w, exists a out, m w = (a, self, set_stdout (stdout w ++ out) w).

(** A method call that leaves the collection and every file as they were. *)
Definition read_only {A : Type} (self : BookmarkManager) (m : Method A) : Prop :=
  forall w,
    (m w).1.2 = self /\ fs (m w).2 = fs w /\ stdout w `prefix_of` stdout (m w).2.

(** A computation that leaves the home directory and every file but [p] as
    they were. *)
Definition confined {A : Type} (p : string) (m : IO A) : Prop :=
  forall w,
    home (m w).2 = home w /\
    forall q, q <> p -> fs (m w).2 !! q = fs w !! q.

(** A method call that, besides, keeps the [data_file] of the manager. *)
Definition keeps_file {A : Type} (self : BookmarkManager) (m : Method A) : Prop :=
  confined (data_file self) m /\
  forall w, data_file (m w).1.2 = data_file self.

(** The lines [list_bookmarks] prints for the records it shows: four lines
    a record, the first with its number, counted from 1. *)
Definition numbered (shown : Collection) : list Message :=
  mjoin (imap (fun k b => item_lines (S k) b) shown).

(** What [list_bookmarks] prints for the records [shown], the first line
    being [none] when there is none and [header] otherwise. *)
Definition listing (none header : Message) (shown : Collection) : list Message :=
  match shown with
  | [] => [none]
  | _ => header :: Rule :: numbered shown
  end.

(** A string that [strip] leaves as it is. *)
Definition trimmed (s : string) : Prop := PyStr.strip s = s.

(** A record as [add_bookmark] stores them: every field trimmed, title and
    tag not empty. *)
Definition tidy (b : Bookmark) : Prop :=
  trimmed (url b) /\ trimmed (title b) /\ title b <> EmptyString /\
  trimmed (tag b) /\ tag b <> EmptyString.

(** One mutation of the manager: any add, any delete, in any world. *)
Inductive any_step `{UrlParser} : BookmarkManager -> BookmarkManager -> Prop :=
  | any_add self url title tag w :
      any_step self (add_bookmark self url title tag w).1.2
  | any_delete self identifier delete_type w :
      any_step self (delete_bookmark self identifier delete_type w).1.2.

(** No white space in front. *)
Definition no_lead (s : string) : Prop :=
  match s with
  | EmptyString => True
  | String c _ => PyStr.isspace c = false
  end.

(** What a method call left behind: the manager and the files as they were,
    or the file of the manager holding the text of its new collection. *)
Definition outcome (self : BookmarkManager) (w : World)
    (r : BookmarkManager * World) : Prop :=
  data_file r.1 = data_file self /\
  ((r.1 = self /\ exists o, r.2 = set_stdout o w) \/
   (exists o, r.2 = set_stdout o (saved_world r.1 w))).

(** ** Sample data *)

Definition demo_path : string := "/home/u/.bookmarks.json".

(** A world with no file yet, where every read and write goes through. *)
Definition demo_world : World := mkWorld "/home/u" ∅ [] false NoFault.


Definition empty_manager : BookmarkManager := mkManager demo_path [].

Definition site_a : Bookmark := mkBookmark "https://a.com" "A" "t".

Definition holder : BookmarkManager := mkManager demo_path [site_a].

Definition blank : string := " ".

Definition spaced : Bookmark := mkBookmark "https://a.com" "a b" "x y".

Definition spaced_manager : BookmarkManager := mkManager demo_path [spaced].

Definition example_a : Bookmark := mkBookmark "https://a.example" "Example A" "dev".

Definition example_b : Bookmark := mkBookmark "https://b.example" "Example B" "dev".

Definition dev_a : Bookmark := mkBookmark "https://a.example" "A" "Development".

Definition dev_b : Bookmark := mkBookmark "https://b.example" "B" "cooking".

Definition dev_c : Bookmark := mkBookmark "https://c.example" "C" "development tools".

Definition two_sites : BookmarkManager :=
  mkManager demo_path [site_a; mkBookmark "https://b.org/x?y=1" "B \ quoted" "t2"].

Definition three_tags : BookmarkManager :=
  mkManager demo_path
    [mkBookmark "https://1.example" "One" "b";
     mkBookmark "https://2.example" "Two" "a";
     mkBookmark "https://3.example" "Three" "B"].

Definition other_path : string := "/tmp/elsewhere.json".

Definition twins : BookmarkManager :=
  mkManager demo_path
    [mkBookmark "https://1.example" "Same" "x";
     mkBookmark "https://2.example" "Other" "y";
     mkBookmark "https://3.example" "SAME" "z"].

Definition doubled : BookmarkManager :=
  mkManager demo_path
    [mkBookmark "https://a.com" "A" "t";
     mkBookmark "https://b.org" "B" "t";
     mkBookmark "HTTPS://A.COM" "A2" "u"].


(** * Properties *)

(** ** Strings *)

Module PyStrFacts.
Import PyStr.

Local Arguments String.append : simpl nomatch.

Lemma is_empty_true (s : string) : is_empty s = true <-> s = EmptyString.
Proof. destruct s; simpl; split; congruence. Qed.

Lemma is_empty_false (s : string) : is_empty s = false <-> s <> EmptyString.
Proof. destruct s; simpl; split; congruence. Qed.

Lemma append_nil_r (s : string) : s +:+ EmptyString = s.
Proof. induction s as [|c s IH]; cbn; [reflexivity | now rewrite IH]. Qed.

Lemma append_assoc (a b c : string) : (a +:+ b) +:+ c = a +:+ b +:+ c.
Proof. induction a as [|x a IH]; cbn; [reflexivity | now rewrite IH]. Qed.

Lemma startswith_spec (s q : string) :
  startswith s q = true <-> exists post, s = q +:+ post.
Proof.
  revert s; induction q as [|a q IH]; intros s.
  - destruct s; simpl; split; eauto.
  - destruct s as [|b s]; simpl.
    + split; [discriminate | intros [post Hp]; discriminate Hp].
    + destruct (ascii_dec a b) as [->|Hne].
      * rewrite IH. split; intros [post Hp]; exists post.
        -- cbn. now rewrite Hp.
        -- cbn in Hp. congruence.
      * split; [discriminate | intros [post Hp]; cbn in Hp; congruence].
Qed.

Lemma contains_spec (s q : string) :
  contains s q = true <-> substring_of q s.
Proof.
  unfold substring_of. induction s as [|c s IH].
  - cbn [contains]. rewrite orb_false_r, startswith_spec. split.
    + intros [post Hp]. exists EmptyString, post. exact Hp.
    + intros ([|x pre] & post & Hp); [exists post; exact Hp | discriminate Hp].
  - cbn [contains]. rewrite orb_true_iff, startswith_spec, IH. split.
    + intros [[post Hp] | (pre & post & Hp)].
      * exists EmptyString, post. exact Hp.
      * exists (String c pre), post. cbn. now rewrite Hp.
    + intros ([|x pre] & post & Hp).
      * left. exists post. exact Hp.
      * right. cbn in Hp. injection Hp as _ Hp. eauto.
Qed.

#[global] Instance substring_of_dec (q s : string) : Decision (substring_of q s).
Proof.
  destruct (contains s q) eqn:E.
  - left. now apply contains_spec.
  - right. intros H. apply contains_spec in H. congruence.
Defined.

End PyStrFacts.

(** ** The [IO] monad *)

Ltac io_unfold :=
  unfold mbind, mret, IO_bind, IO_ret, print, print_all, path_exists, read_text,
    get_home in *.

Lemma same_ci_true (a b : string) :
  same_ci a b = true <-> PyStr.lower a = PyStr.lower b.
Proof. unfold same_ci. apply bool_decide_eq_true. Qed.

Lemma same_ci_false (a b : string) :
  same_ci a b = false <-> PyStr.lower a <> PyStr.lower b.
Proof. unfold same_ci. apply bool_decide_eq_false. Qed.

Lemma set_bookmarks_same (self : BookmarkManager) :
  set_bookmarks (bookmarks self) self = self.
Proof. now destruct self. Qed.

(** ** The finders *)

Lemma find_url_from_None (i : nat) (c : Collection) (u : string) :
  find_url_from i c u = None <->
  forall b, b ∈ c -> PyStr.lower (url b) <> PyStr.lower u.
Proof.
  revert i; induction c as [|b c IH]; intros i; simpl.
  - split; [intros _ b Hb; inversion Hb | reflexivity].
  - destruct (same_ci (url b) u) eqn:E.
    + apply same_ci_true in E. split; [discriminate|].
      intros H. exfalso. apply (H b); [left | exact E].
    + apply same_ci_false in E. rewrite IH. split.
      * intros H b' Hb'. apply elem_of_cons in Hb' as [->|Hb']; auto.
      * intros H b' Hb'. apply H. now right.
Qed.

Lemma find_url_from_Some (i k : nat) (c : Collection) (u : string) :
  find_url_from i c u = Some k <->
  exists pre b post,
    c = pre ++ b :: post /\ k = i + length pre /\
    PyStr.lower (url b) = PyStr.lower u /\
    forall b', b' ∈ pre -> PyStr.lower (url b') <> PyStr.lower u.
Proof.
  revert i; induction c as [|b c IH]; intros i; simpl.
  - split; [discriminate|]. intros (pre & b & post & Hc & _). now destruct pre.
  - destruct (same_ci (url b) u) eqn:E.
    + apply same_ci_true in E. split.
      * intros [= <-]. exists [], b, c. repeat split; auto with lia.
        intros b' Hb'. inversion Hb'.
      * intros ([|x pre] & b0 & post & Hc & -> & Hb0 & Hpre); simpl in *.
        -- f_equal. lia.
        -- injection Hc as <- _. exfalso. apply (Hpre b); [left | exact E].
    + apply same_ci_false in E. rewrite IH. split.
      * intros (pre & b0 & post & -> & -> & Hb0 & Hpre).
        exists (b :: pre), b0, post. repeat split; simpl; auto with lia.
        intros b' Hb'. apply elem_of_cons in Hb' as [->|Hb']; auto.
      * intros ([|x pre] & b0 & post & Hc & -> & Hb0 & Hpre); simpl in *.
        -- injection Hc as <- _. contradiction.
        -- injection Hc as <- ->. exists pre, b0, post.
           repeat split; auto with lia. intros b' Hb'. apply Hpre. now right.
Qed.

(** ** Uniqueness of urls *)

(** [url_unique] read position by position. *)
Lemma url_unique_lookup (c : Collection) :
  url_unique c <->
  forall i j bi bj,
    c !! i = Some bi -> c !! j = Some bj ->
    PyStr.lower (url bi) = PyStr.lower (url bj) -> i = j.
Proof.
  unfold url_unique. rewrite NoDup_alt. split.
  - intros H i j bi bj Hi Hj E. apply (H i j (url_key bi)).
    + now rewrite list_lookup_fmap, Hi.
    + rewrite list_lookup_fmap, Hj. unfold url_key. simpl. now rewrite E.
  - intros H i j x Hi Hj. rewrite list_lookup_fmap in Hi, Hj.
    destruct (c !! i) as [bi|] eqn:Ei; [|discriminate].
    destruct (c !! j) as [bj|] eqn:Ej; [|discriminate].
    simpl in Hi, Hj. apply (H i j bi bj); auto.
    unfold url_key in *. congruence.
Qed.

Lemma url_unique_snoc (c : Collection) (b : Bookmark) :
  url_unique c ->
  (forall b', b' ∈ c -> PyStr.lower (url b') <> PyStr.lower (url b)) ->
  url_unique (c ++ [b]).
Proof.
  unfold url_unique. intros Hc Hb. rewrite fmap_app. apply NoDup_app.
  split; [exact Hc|]. split; [|apply NoDup_singleton].
  intros k Hk Hk'. apply list_elem_of_singleton in Hk' as ->.
  apply list_elem_of_fmap in Hk as (b' & E & Hb'). apply (Hb b' Hb'). symmetry. exact E.
Qed.

Lemma url_unique_filter (P : Bookmark -> Prop) `{forall b, Decision (P b)} (c : Collection) :
  url_unique c -> url_unique (filter P c).
Proof.
  unfold url_unique. intros Hc.
  eapply sublist_NoDup; first [exact Hc | apply fmap_sublist, sublist_filter].
Qed.

(** ** Saving *)

Lemma save_ok (self : BookmarkManager) (w : World) :
  write_fault w = NoFault ->
  _save_bookmarks self w = (true, saved_world self w).
Proof.
  intros Hw. unfold _save_bookmarks, write_text, saved_world. io_unfold. now rewrite Hw.
Qed.


(** A save that reports success ran in a world without a write fault. *)
Lemma save_true_inv (self : BookmarkManager) (w w' : World) :
  _save_bookmarks self w = (true, w') ->
  write_fault w = NoFault /\ w' = saved_world self w.
Proof.
  unfold _save_bookmarks, write_text, saved_world. io_unfold.
  destruct (write_fault w); simpl; intros [= <-]; auto.
Qed.

(** ** [add_bookmark] *)

Section Add.
Context `{UrlParser}.


Lemma add_bookmark_duplicate self url title tag w :
  _validate_url url = true ->
  _find_bookmark_by_url self url <> None ->
  add_bookmark self url title tag w =
    (false, self, set_stdout (stdout w ++ [ErrDuplicateUrl url]) w).
Proof.
  intros Hv Hf. unfold add_bookmark. rewrite Hv. simpl.
  destruct (_find_bookmark_by_url self url); [|contradiction].
  rewrite bool_decide_true by eauto. reflexivity.
Qed.

(** A successful add passed the four checks and appended the new record. *)
Lemma add_bookmark_true_inv self url title tag w self' w' :
  add_bookmark self url title tag w = (true, self', w') ->
  add_accepts self url title tag /\
  self' = set_bookmarks (bookmarks self ++ [new_record url title tag]) self /\
  write_fault w = NoFault.
Proof.
  unfold add_bookmark, add_accepts.
  destruct (_validate_url url); simpl; [|io_unfold; discriminate].
  destruct (_find_bookmark_by_url self url) as [k|] eqn:Hf.
  { rewrite bool_decide_true by eauto. io_unfold. discriminate. }
  rewrite bool_decide_false by (intros [? ?]; discriminate).
  destruct (PyStr.is_empty (PyStr.strip title)) eqn:Ht; [io_unfold; discriminate|].
  destruct (PyStr.is_empty (PyStr.strip tag)) eqn:Hg; [io_unfold; discriminate|].
  apply PyStrFacts.is_empty_false in Ht, Hg.
  io_unfold. fold (new_record url title tag).
  destruct (_save_bookmarks _ w) as [[] w1] eqn:Hs; simpl; [|discriminate].
  intros [= <- <-]. apply save_true_inv in Hs as [Hw _]. auto.
Qed.

End Add.

(** ** [delete_bookmark] *)

Lemma set_stdout_app_nil (w : World) : set_stdout (stdout w ++ []) w = w.
Proof. destruct w. unfold set_stdout. simpl. now rewrite app_nil_r. Qed.

Lemma split_deleted_spec (R : list Bookmark) (c : Collection) :
  split_deleted R c =
    (filter (fun b => is_deleted R b = false) c,
     length (filter (fun b => is_deleted R b = true) c),
     filter (fun b => is_deleted R b = true) c).
Proof.
  induction c as [|b c IH]; [reflexivity|].
  simpl. rewrite IH. rewrite !filter_cons.
  destruct (is_deleted R b) eqn:E.
  - rewrite decide_False by discriminate. now rewrite decide_True by reflexivity.
  - rewrite decide_True by reflexivity. now rewrite decide_False by discriminate.
Qed.

(** [delete_bookmark] once the identifier is not blank and some record matches. *)
Lemma delete_bookmark_found self identifier delete_type w :
  PyStr.strip identifier <> EmptyString ->
  to_remove self identifier delete_type <> [] ->
  delete_bookmark self identifier delete_type w =
    let R := to_remove self identifier delete_type in
    let w0 := set_stdout (stdout w ++ announcement identifier delete_type R) w in
    let '(new_bookmarks, deleted_count, info) := split_deleted R (bookmarks self) in
    let '(ok, w1) := _save_bookmarks (set_bookmarks new_bookmarks self) w0 in
    if (ok : bool)
    then (true, set_bookmarks new_bookmarks self,
          set_stdout (stdout w1 ++ Deleted deleted_count ::
                        ((fun b => DeletedItem (title b) (url b)) <$> info)) w1)
    else (false, self, set_stdout (stdout w1 ++ [ErrNotDeleted]) w1).
Proof.
  intros Hid HR. unfold delete_bookmark.
  apply PyStrFacts.is_empty_false in Hid. rewrite Hid.
  destruct (to_remove self identifier delete_type) as [|r R] eqn:ER; [contradiction|].
  cbv zeta. unfold announcement.
  destruct (split_deleted (r :: R) (bookmarks self)) as [[nb cnt] info].
  io_unfold.
  destruct (bool_decide (delete_type = "title") && (1 <? length (r :: R))); simpl.
  - rewrite <- !app_assoc. simpl.
    destruct (_save_bookmarks _ _) as [[] w1]; simpl.
    + f_equal. unfold set_stdout. simpl. now rewrite <- app_assoc.
    + now destruct self.
  - rewrite set_stdout_app_nil.
    destruct (_save_bookmarks _ _) as [[] w1]; simpl.
    + f_equal. unfold set_stdout. simpl. now rewrite <- app_assoc.
    + now destruct self.
Qed.

Lemma delete_bookmark_blank self identifier delete_type w :
  PyStr.strip identifier = EmptyString ->
  delete_bookmark self identifier delete_type w =
    (false, self, set_stdout (stdout w ++ [ErrEmptyIdentifier delete_type]) w).
Proof.
  intros Hid. unfold delete_bookmark. apply PyStrFacts.is_empty_true in Hid.
  now rewrite Hid.
Qed.

Lemma delete_bookmark_not_found self identifier delete_type w :
  PyStr.strip identifier <> EmptyString ->
  to_remove self identifier delete_type = [] ->
  delete_bookmark self identifier delete_type w =
    (false, self, set_stdout (stdout w ++ [ErrNotFound delete_type identifier]) w).
Proof.
  intros Hid HR. unfold delete_bookmark. apply PyStrFacts.is_empty_false in Hid.
  now rewrite Hid, HR.
Qed.

Lemma url_unique_middle (pre post : Collection) (b : Bookmark) :
  url_unique (pre ++ b :: post) ->
  forall b', b' ∈ pre ++ post -> url_key b' <> url_key b.
Proof.
  unfold url_unique. rewrite fmap_app, fmap_cons.
  intros H b' Hb' E.
  apply NoDup_app in H as (_ & Hdisj & Hpost).
  apply NoDup_cons in Hpost as [Hb _].
  apply elem_of_app in Hb' as [Hb'|Hb'].
  - apply (Hdisj (url_key b')); [now apply list_elem_of_fmap_2|].
    rewrite E. left.
  - apply Hb. rewrite <- E. now apply list_elem_of_fmap_2.
Qed.

Lemma is_deleted_single (b b' : Bookmark) :
  is_deleted [b] b' = true <-> url_key b' = url_key b.
Proof.
  unfold is_deleted. simpl. rewrite orb_false_r. apply same_ci_true.
Qed.

Lemma filter_all {A} (P : A -> Prop) `{forall x, Decision (P x)} (l : list A) :
  (forall x, x ∈ l -> P x) -> filter P l = l.
Proof.
  induction l as [|x l IH]; intros Hl; [reflexivity|].
  rewrite filter_cons, decide_True by (apply Hl; left).
  f_equal. apply IH. intros y Hy. apply Hl. now right.
Qed.

Lemma filter_none {A} (P : A -> Prop) `{forall x, Decision (P x)} (l : list A) :
  (forall x, x ∈ l -> ~ P x) -> filter P l = [].
Proof.
  induction l as [|x l IH]; intros Hl; [reflexivity|].
  rewrite filter_cons, decide_False by (apply Hl; left).
  apply IH. intros y Hy. apply Hl. now right.
Qed.

(** With unique urls, removing by the url of one record removes that record
    and no other. *)
Lemma split_deleted_unique (pre post : Collection) (b : Bookmark) :
  url_unique (pre ++ b :: post) ->
  split_deleted [b] (pre ++ b :: post) = (pre ++ post, 1, [b]).
Proof.
  intros Hu. pose proof (url_unique_middle _ _ _ Hu) as Hne.
  assert (Hkeep : forall x, x ∈ pre ++ post -> is_deleted [b] x = false).
  { intros x Hx. destruct (is_deleted [b] x) eqn:E; [|reflexivity].
    apply is_deleted_single in E. now apply Hne in Hx. }
  assert (Hb : is_deleted [b] b = true) by now apply is_deleted_single.
  rewrite split_deleted_spec.
  rewrite !filter_app, !filter_cons.
  rewrite decide_False by (rewrite Hb; discriminate).
  rewrite decide_True by exact Hb.
  rewrite !(filter_all (fun x => is_deleted [b] x = false)).
  2,3: intros x Hx; apply Hkeep; apply elem_of_app; auto.
  rewrite !(filter_none (fun x => is_deleted [b] x = true)).
  2,3: intros x Hx; rewrite Hkeep; [discriminate | apply elem_of_app; auto].
  reflexivity.
Qed.

Lemma to_remove_url_none self identifier :
  (forall b, b ∈ bookmarks self -> PyStr.lower (url b) <> PyStr.lower identifier) ->
  to_remove self identifier "url" = [].
Proof.
  intros H. unfold to_remove, _find_bookmark_by_url. simpl.
  apply (find_url_from_None 0) in H. now rewrite H.
Qed.

Lemma to_remove_url_first self identifier pre b post :
  bookmarks self = pre ++ b :: post ->
  (forall b', b' ∈ pre -> PyStr.lower (url b') <> PyStr.lower identifier) ->
  PyStr.lower (url b) = PyStr.lower identifier ->
  to_remove self identifier "url" = [b].
Proof.
  intros Hc Hpre Hb. unfold to_remove, _find_bookmark_by_url. simpl.
  assert (Hf : find_url_from 0 (bookmarks self) identifier = Some (length pre)).
  { apply find_url_from_Some. exists pre, b, post. auto. }
  rewrite Hf, Hc. now rewrite list_lookup_middle.
Qed.

(** ** C1 and C3: urls with surrounding white space *)

(** C1 (the code breaks it).  Claim: in every collection reached from the
    empty one by adds and deletes, no two records share a url under
    case-insensitive comparison, also when the added url carries surrounding
    white space.  The duplicate check of [add_bookmark] compares the url as
    given, the record stores it trimmed: after [https://a.com], the url
    [https://a.com ] (one trailing space) passes the check, both adds report
    success, and the collection holds the same url twice. *)
Theorem C1_padded_url_stored_twice :
  exists self1 w1 self2 w2,
    add_bookmark empty_manager "https://a.com" "A" "t" demo_world = (true, self1, w1) /\
    add_bookmark self1 "https://a.com " "B" "t" w1 = (true, self2, w2) /\
    url_unique (bookmarks self1) /\
    bookmarks self2 =
      [mkBookmark "https://a.com" "A" "t"; mkBookmark "https://a.com" "B" "t"] /\
    ~ url_unique (bookmarks self2).
Proof.
  eexists _, _, _, _.
  split; [vm_compute; reflexivity|]. split; [vm_compute; reflexivity|].
  repeat split.
  - unfold url_unique. simpl. apply NoDup_singleton.
  - unfold url_unique. simpl. intros Hd. apply NoDup_cons in Hd as [Hin _].
    apply Hin. vm_compute. left.
Qed.

(** C3 (the code breaks it).  Claim: after a successful add of a valid
    triple the listing holds exactly one record with the trimmed values, and
    a second add of the same url is rejected as a duplicate.  For the url
    [https://a.com ] (one trailing space) the second add of the very same
    triple is accepted, and the unfiltered listing then holds the trimmed
    record twice. *)
Theorem C3_padded_url_accepted_twice :
  exists self1 w1 self2 w2,
    _validate_url "https://a.com " = true /\
    add_bookmark empty_manager "https://a.com " "T" "t" demo_world = (true, self1, w1) /\
    add_bookmark self1 "https://a.com " "T" "t" w1 = (true, self2, w2) /\
    bookmarks_to_show self2 None None =
      [mkBookmark "https://a.com" "T" "t"; mkBookmark "https://a.com" "T" "t"].
Proof.
  eexists _, _, _, _.
  split; [reflexivity|].
  split; [vm_compute; reflexivity|]. split; [vm_compute; reflexivity|].
  reflexivity.
Qed.

(** ** C2: rollback when the save fails *)



(** ** C6: delete by url *)

(** C6 as stated fails: the identifier [" "] matches no record of the empty
    collection, yet the call is rejected for an empty identifier, not with
    NotFound. *)
Lemma C6_blank_identifier_counterexample :
  url_unique (bookmarks empty_manager) /\
  (forall b, b ∈ bookmarks empty_manager -> PyStr.lower (url b) <> PyStr.lower blank) /\
  delete_bookmark empty_manager blank "url" demo_world =
    (false, empty_manager, set_stdout [ErrEmptyIdentifier "url"] demo_world) /\
  delete_bookmark empty_manager blank "url" demo_world <>
    (false, empty_manager, set_stdout [ErrNotFound "url" blank] demo_world).
Proof.
  split; [apply NoDup_nil_2|]. split; [intros b Hb; inversion Hb|].
  split; [reflexivity|]. vm_compute. discriminate.
Qed.

(** C6 (amended).  On a collection with unique urls and for an identifier
    that is not blank: when the identifier matches the url of a record
    case-insensitively and the save goes through, delete in url mode removes
    that record and no other and returns [True]; when it matches no record
    the call is rejected with NotFound and the manager is unchanged. *)
Theorem C6_delete_by_url (self : BookmarkManager) (identifier : string) (w : World) :
  url_unique (bookmarks self) ->
  PyStr.strip identifier <> EmptyString ->
  (forall pre b post,
      bookmarks self = pre ++ b :: post ->
      PyStr.lower (url b) = PyStr.lower identifier ->
      write_fault w = NoFault ->
      exists w',
        delete_bookmark self identifier "url" w =
          (true, set_bookmarks (pre ++ post) self, w') /\
        stdout w' = stdout w ++ [Deleted 1; DeletedItem (title b) (url b)] /\
        fs w' !! data_file self = Some (Json.dump (pre ++ post))) /\
  ((forall b, b ∈ bookmarks self -> PyStr.lower (url b) <> PyStr.lower identifier) ->
      delete_bookmark self identifier "url" w =
        (false, self, set_stdout (stdout w ++ [ErrNotFound "url" identifier]) w)).
Proof.
  intros Hu Hid. split.
  - intros pre b post Hc Hb Hw.
    assert (HR : to_remove self identifier "url" = [b]).
    { apply (to_remove_url_first _ _ pre b post); auto.
      intros b' Hb' E. rewrite Hc in Hu.
      apply (url_unique_middle _ _ _ Hu b'); [apply elem_of_app; auto|].
      unfold url_key. congruence. }
    rewrite delete_bookmark_found; [|exact Hid | rewrite HR; discriminate].
    rewrite HR. cbv zeta.
    assert (Hs : split_deleted [b] (bookmarks self) = (pre ++ post, 1, [b])).
    { rewrite Hc. apply split_deleted_unique. now rewrite <- Hc. }
    rewrite Hs.
    rewrite save_ok by exact Hw.
    eexists. split; [reflexivity|]. split.
    + simpl. now rewrite app_nil_r.
    + simpl. apply lookup_insert_eq.
  - intros Hnone. apply delete_bookmark_not_found; [exact Hid|].
    now apply to_remove_url_none.
Qed.

Lemma C6_delete_by_url_witness :
  url_unique (bookmarks holder) /\
  PyStr.strip "HTTPS://A.COM" <> EmptyString /\
  (exists w',
      delete_bookmark holder "HTTPS://A.COM" "url" demo_world = (true, empty_manager, w') /\
      stdout w' = [Deleted 1; DeletedItem "A" "https://a.com"] /\
      fs w' !! demo_path = Some "[]") /\
  delete_bookmark holder "https://b.org" "url" demo_world =
    (false, holder, set_stdout [ErrNotFound "url" "https://b.org"] demo_world).
Proof.
  assert (Hu : url_unique (bookmarks holder)) by apply NoDup_singleton.
  assert (H1 : PyStr.strip "HTTPS://A.COM" <> EmptyString) by (vm_compute; discriminate).
  assert (H2 : PyStr.strip "https://b.org" <> EmptyString) by (vm_compute; discriminate).
  split; [exact Hu|]. split; [exact H1|]. split.
  - destruct (C6_delete_by_url holder "HTTPS://A.COM" demo_world Hu H1) as [Hdel _].
    apply (Hdel [] site_a []); reflexivity.
  - destruct (C6_delete_by_url holder "https://b.org" demo_world Hu H2) as [_ Hnone].
    apply Hnone. intros b Hb. apply list_elem_of_singleton in Hb as ->.
    vm_compute. discriminate.
Defined.

(** ** C4 and C5: search *)

Lemma search_title_first (q : string) (pre post : Collection) (b : Bookmark) :
  (forall b', b' ∈ pre -> ~ PyStr.substring_of q (PyStr.lower (title b'))) ->
  PyStr.substring_of q (PyStr.lower (title b)) ->
  search_title q (pre ++ b :: post) = Some (url b).
Proof.
  intros Hpre Hb. induction pre as [|x pre IH]; simpl.
  - apply PyStrFacts.contains_spec in Hb. now rewrite Hb.
  - destruct (PyStr.contains (PyStr.lower (title x)) q) eqn:E.
    + apply PyStrFacts.contains_spec in E. exfalso. apply (Hpre x); [left | exact E].
    + apply IH. intros b' Hb'. apply Hpre. now right.
Qed.

Lemma search_title_none (q : string) (c : Collection) :
  (forall b, b ∈ c -> ~ PyStr.substring_of q (PyStr.lower (title b))) ->
  search_title q c = None.
Proof.
  induction c as [|x c IH]; intros Hc; simpl; [reflexivity|].
  destruct (PyStr.contains (PyStr.lower (title x)) q) eqn:E.
  - apply PyStrFacts.contains_spec in E. exfalso. apply (Hc x); [left | exact E].
  - apply IH. intros b Hb. apply Hc. now right.
Qed.

Lemma search_tag_filter (q : string) (c : Collection) :
  search_tag q c =
    title <$> filter (fun b => PyStr.substring_of q (PyStr.lower (tag b))) c.
Proof.
  induction c as [|x c IH]; [reflexivity|].
  simpl. rewrite filter_cons.
  destruct (PyStr.contains (PyStr.lower (tag x)) q) eqn:E.
  - rewrite decide_True by now apply PyStrFacts.contains_spec.
    simpl. now rewrite IH.
  - rewrite decide_False; [exact IH|].
    intros Hx. apply PyStrFacts.contains_spec in Hx. congruence.
Qed.

(** C4 as stated fails: the query [" "] is not empty and the title [a b]
    contains it, yet the search is rejected for an empty query and returns
    [None], not the url of the record. *)
Lemma C4_blank_query_counterexample :
  blank <> EmptyString /\
  PyStr.substring_of (PyStr.lower blank) (PyStr.lower (title spaced)) /\
  search_bookmarks spaced_manager blank "title" demo_world =
    (ResNone, spaced_manager, set_stdout [ErrEmptyQuery] demo_world).
Proof.
  split; [discriminate|]. split; [|reflexivity].
  exists "a", "b". reflexivity.
Qed.

(** C4 (amended).  For a query that is not blank (not empty once trimmed),
    search in title mode returns the url of the first record, in insertion
    order, whose title contains the query as a case-insensitive substring,
    and prints that url and nothing else, whatever records follow. *)
Theorem C4_search_title_first_match (self : BookmarkManager) (query : string) (w : World)
    (pre post : Collection) (b : Bookmark) :
  PyStr.strip query <> EmptyString ->
  bookmarks self = pre ++ b :: post ->
  (forall b', b' ∈ pre ->
     ~ PyStr.substring_of (PyStr.lower query) (PyStr.lower (title b'))) ->
  PyStr.substring_of (PyStr.lower query) (PyStr.lower (title b)) ->
  search_bookmarks self query "title" w =
    (ResUrl (url b), self, set_stdout (stdout w ++ [Line (url b)]) w).
Proof.
  intros Hq Hc Hpre Hb. unfold search_bookmarks.
  apply PyStrFacts.is_empty_false in Hq. rewrite Hq. simpl.
  rewrite Hc, (search_title_first _ _ _ _ Hpre Hb). reflexivity.
Qed.

Lemma C4_search_title_first_match_witness :
  PyStr.strip "Exam" <> EmptyString /\
  PyStr.substring_of (PyStr.lower "Exam") (PyStr.lower (title example_a)) /\
  PyStr.substring_of (PyStr.lower "Exam") (PyStr.lower (title example_b)) /\
  search_bookmarks (mkManager demo_path [example_a; example_b]) "Exam" "title" demo_world =
    (ResUrl "https://a.example", mkManager demo_path [example_a; example_b],
     set_stdout [Line "https://a.example"] demo_world).
Proof.
  assert (Hq : PyStr.strip "Exam" <> EmptyString) by (vm_compute; discriminate).
  assert (Ha : PyStr.substring_of (PyStr.lower "Exam") (PyStr.lower (title example_a))).
  { exists EmptyString, "ple a". reflexivity. }
  assert (Hb : PyStr.substring_of (PyStr.lower "Exam") (PyStr.lower (title example_b))).
  { exists EmptyString, "ple b". reflexivity. }
  split; [exact Hq|]. split; [exact Ha|]. split; [exact Hb|].
  apply (C4_search_title_first_match (mkManager demo_path [example_a; example_b])
           "Exam" demo_world [] [example_b] example_a Hq eq_refl); [|exact Ha].
  intros b' Hb'. inversion Hb'.
Defined.

(** C5 as stated fails: the query [" "] is not empty and the tag [x y]
    contains it, yet the search is rejected for an empty query and returns
    [None], not the titles of the matching records. *)
Lemma C5_blank_query_counterexample :
  blank <> EmptyString /\
  PyStr.substring_of (PyStr.lower blank) (PyStr.lower (tag spaced)) /\
  search_bookmarks spaced_manager blank "tag" demo_world =
    (ResNone, spaced_manager, set_stdout [ErrEmptyQuery] demo_world).
Proof.
  split; [discriminate|]. split; [|reflexivity].
  exists "x", "y". reflexivity.
Qed.

(** C5 (amended).  For a query that is not blank (not empty once trimmed),
    search in tag mode returns, and prints, the title of every record whose
    tag contains the query as a case-insensitive substring, in insertion
    order: all the matches, not the first only. *)
Theorem C5_search_tag_all_matches (self : BookmarkManager) (query : string) (w : World) :
  PyStr.strip query <> EmptyString ->
  let hits :=
    title <$>
      filter (fun b => PyStr.substring_of (PyStr.lower query) (PyStr.lower (tag b)))
             (bookmarks self) in
  search_bookmarks self query "tag" w =
    (ResTitles hits, self, set_stdout (stdout w ++ (Line <$> hits)) w).
Proof.
  intros Hq hits. unfold search_bookmarks.
  apply PyStrFacts.is_empty_false in Hq. rewrite Hq. simpl.
  rewrite search_tag_filter. reflexivity.
Qed.

Lemma C5_search_tag_all_matches_witness :
  PyStr.strip "dev" <> EmptyString /\
  search_bookmarks (mkManager demo_path [dev_a; dev_b; dev_c]) "dev" "tag" demo_world =
    (ResTitles ["A"; "C"], mkManager demo_path [dev_a; dev_b; dev_c],
     set_stdout [Line "A"; Line "C"] demo_world).
Proof.
  assert (Hq : PyStr.strip "dev" <> EmptyString) by (vm_compute; discriminate).
  split; [exact Hq|].
  exact (C5_search_tag_all_matches (mkManager demo_path [dev_a; dev_b; dev_c])
           "dev" demo_world Hq).
Defined.

(** ** C7: the JSON text round trip *)

Module JsonFacts.
Import Json PyStrFacts.

Local Arguments String.append : simpl nomatch.

Lemma length_append (a b : string) :
  String.length (a +:+ b) = String.length a + String.length b.
Proof. induction a as [|c a IH]; simpl; [reflexivity | now rewrite IH]. Qed.

(** The decoder reads back each escaped character. *)
Lemma scanstring_escape (c : ascii) (rest : string) :
  scanstring (escape c +:+ rest) = cons_fst c (scanstring rest).
Proof. destruct c as [[] [] [] [] [] [] [] []]; reflexivity. Qed.

Lemma scanstring_quote (rest : string) :
  scanstring (String quote rest) = Some (EmptyString, rest).
Proof. reflexivity. Qed.

Lemma scanstring_escape_all (s rest : string) :
  scanstring (escape_all s +:+ String quote rest) = Some (s, rest).
Proof.
  induction s as [|c s IH]; [reflexivity|].
  cbn [escape_all]. rewrite append_assoc, scanstring_escape, IH. reflexivity.
Qed.

Lemma expect_same (c : ascii) (r : string) : expect c (String c r) = Some r.
Proof. unfold expect. now destruct (ascii_dec c c). Qed.

Lemma encode_basestring_app (s rest : string) :
  encode_basestring s +:+ rest = String quote (escape_all s +:+ String quote rest).
Proof. unfold encode_basestring. simpl. now rewrite append_assoc. Qed.

Lemma parse_pair_dump (key value rest : string) :
  parse_pair (dump_member key value +:+ rest) = Some ((key, value), skip_ws rest).
Proof.
  unfold parse_pair, dump_member.
  rewrite !append_assoc, !encode_basestring_app.
  rewrite expect_same. simpl. rewrite scanstring_escape_all. simpl.
  rewrite scanstring_escape_all. reflexivity.
Qed.

Lemma bookmark_of_pairs (u t g : string) :
  bookmark_of_dict (dict_of_pairs [("url", u); ("title", t); ("tag", g)]) =
    Some (mkBookmark u t g).
Proof. vm_compute. reflexivity. Qed.

Lemma skip_ws_indent (n : nat) (rest : string) :
  skip_ws (newline_indent n +:+ rest) = skip_ws rest.
Proof.
  unfold newline_indent. simpl. induction n as [|n IH]; [reflexivity|].
  simpl. exact IH.
Qed.

Lemma skip_ws_member (key value rest : string) :
  skip_ws (dump_member key value +:+ rest) = dump_member key value +:+ rest.
Proof.
  unfold dump_member. now rewrite !append_assoc, encode_basestring_app.
Qed.

Lemma parse_pairs_S (fuel : nat) (s : string) :
  parse_pairs (S fuel) s =
    parse_pair s ≫= fun '(kv, r) =>
      match r with
      | String "}" r => Some ([kv], r)
      | String "," r => parse_pairs fuel (skip_ws r) ≫= fun '(kvs, r) => Some (kv :: kvs, r)
      | _ => None
      end.
Proof. reflexivity. Qed.

(** A member followed by a comma: the loop goes on with the next one. *)
Lemma parse_pairs_comma (fuel n : nat) (key value rest : string) :
  parse_pairs (S fuel) (dump_member key value +:+ "," +:+ newline_indent n +:+ rest) =
    parse_pairs fuel (skip_ws rest) ≫= fun '(kvs, r) => Some ((key, value) :: kvs, r).
Proof.
  rewrite parse_pairs_S, parse_pair_dump. cbn [mbind option_bind].
  change (skip_ws ("," +:+ newline_indent n +:+ rest))
    with (String "," (newline_indent n +:+ rest)).
  cbv iota beta. now rewrite skip_ws_indent.
Qed.

(** The last member, followed by the closing brace. *)
Lemma parse_pairs_close (fuel n : nat) (key value rest : string) :
  parse_pairs (S fuel) (dump_member key value +:+ newline_indent n +:+ "}" +:+ rest) =
    Some ([(key, value)], rest).
Proof.
  rewrite parse_pairs_S, parse_pair_dump. now rewrite skip_ws_indent.
Qed.

Lemma parse_object_member (fuel n : nat) (key value rest : string) :
  parse_object fuel (newline_indent n +:+ dump_member key value +:+ rest) =
    parse_pairs fuel (dump_member key value +:+ rest).
Proof.
  unfold parse_object. rewrite skip_ws_indent, skip_ws_member.
  unfold dump_member. now rewrite !append_assoc, encode_basestring_app.
Qed.

Lemma dump_bookmark_app (b : Bookmark) (rest : string) :
  dump_bookmark b +:+ rest =
    String "{" (newline_indent 2 +:+ dump_member "url" (url b) +:+
      "," +:+ newline_indent 2 +:+ dump_member "title" (title b) +:+
      "," +:+ newline_indent 2 +:+ dump_member "tag" (tag b) +:+
      newline_indent 1 +:+ "}" +:+ rest).
Proof. unfold dump_bookmark. now rewrite !append_assoc. Qed.

(** One record is read back, given fuel for its three members. *)
Lemma parse_bookmark_dump (fuel : nat) (b : Bookmark) (rest : string) :
  3 <= fuel ->
  parse_bookmark fuel (dump_bookmark b +:+ rest) = Some (b, skip_ws rest).
Proof.
  intros Hf. destruct fuel as [|[|[|fuel]]]; try lia.
  unfold parse_bookmark. rewrite dump_bookmark_app, expect_same.
  cbn [mbind option_bind]. rewrite parse_object_member.
  rewrite parse_pairs_comma, skip_ws_member.
  rewrite parse_pairs_comma, skip_ws_member.
  rewrite parse_pairs_close.
  cbn [mbind option_bind]. rewrite bookmark_of_pairs.
  cbn [mbind option_bind]. now destruct b.
Qed.

Lemma dump_items_head (b : Bookmark) (c : Collection) (rest : string) :
  exists r, dump_items (b :: c) +:+ rest = String "{" r.
Proof.
  destruct c as [|b' c]; cbn [dump_items].
  - rewrite dump_bookmark_app. eauto.
  - rewrite append_assoc, dump_bookmark_app. eauto.
Qed.

Lemma dump_items_cons (b b' : Bookmark) (c : Collection) :
  dump_items (b :: b' :: c) =
    dump_bookmark b +:+ "," +:+ newline_indent 1 +:+ dump_items (b' :: c).
Proof. reflexivity. Qed.

Lemma parse_items_S (fuel : nat) (s : string) :
  parse_items (S fuel) s =
    parse_bookmark (S fuel) s ≫= fun '(b, r) =>
      match r with
      | String "]" r => Some ([b], r)
      | String "," r => parse_items fuel (skip_ws r) ≫= fun '(bs, r) => Some (b :: bs, r)
      | _ => None
      end.
Proof. reflexivity. Qed.

(** The records of a non-empty array are read back, given fuel for each of
    them and for the members of one. *)
Lemma parse_items_dump (c : Collection) (fuel : nat) (rest : string) :
  c <> [] ->
  length c + 2 <= fuel ->
  parse_items fuel (dump_items c +:+ newline_indent 0 +:+ "]" +:+ rest) = Some (c, rest).
Proof.
  revert fuel. induction c as [|b c IH]; intros fuel Hne Hf; [contradiction|].
  destruct fuel as [|fuel]; [simpl in Hf; lia|].
  rewrite parse_items_S. destruct c as [|b' c].
  - cbn [dump_items]. rewrite parse_bookmark_dump by (simpl in Hf; lia).
    rewrite skip_ws_indent. reflexivity.
  - rewrite dump_items_cons. rewrite !append_assoc.
    rewrite parse_bookmark_dump by (simpl in Hf; lia).
    change (skip_ws ("," +:+ newline_indent 1 +:+
                     dump_items (b' :: c) +:+ newline_indent 0 +:+ "]" +:+ rest))
      with (String "," (newline_indent 1 +:+
                        dump_items (b' :: c) +:+ newline_indent 0 +:+ "]" +:+ rest)).
    cbn [mbind option_bind]. cbv beta iota. rewrite skip_ws_indent.
    destruct (dump_items_head b' c (newline_indent 0 +:+ "]" +:+ rest)) as [r Hr].
    assert (Hskip : forall r', skip_ws (String "{" r') = String "{" r') by reflexivity.
    rewrite Hr, Hskip, <- Hr.
    rewrite IH; [reflexivity | discriminate | simpl in *; lia].
Qed.

Lemma length_dump_items (c : Collection) : length c <= String.length (dump_items c).
Proof.
  induction c as [|b c IH]; [simpl; lia|].
  destruct c as [|b' c].
  - unfold dump_items, dump_bookmark. simpl. lia.
  - rewrite dump_items_cons, !length_append. simpl in *. lia.
Qed.

(** Decoding the text written for a collection gives the collection back. *)
Theorem load_dump (c : Collection) : load (dump c) = Some c.
Proof.
  destruct c as [|b c]; [reflexivity|].
  unfold load, dump.
  change (skip_ws ("[" +:+ newline_indent 1 +:+ dump_items (b :: c) +:+
                   newline_indent 0 +:+ "]"))
    with (String "[" (newline_indent 1 +:+ dump_items (b :: c) +:+
                      newline_indent 0 +:+ "]")).
  rewrite expect_same. cbn [mbind option_bind].
  unfold parse_array. rewrite skip_ws_indent.
  destruct (dump_items_head b c (newline_indent 0 +:+ "]")) as [r Hr].
  assert (Hskip : forall r', skip_ws (String "{" r') = String "{" r') by reflexivity.
  rewrite Hr, Hskip. cbv iota beta. rewrite <- Hr.
  rewrite <- (append_nil_r "]").
  rewrite parse_items_dump; [reflexivity | discriminate |].
  rewrite !length_append. pose proof (length_dump_items (b :: c)). simpl in *. lia.
Qed.
End JsonFacts.

Lemma load_after_save (self : BookmarkManager) (w : World) :
  read_fault w = false ->
  _load_bookmarks (data_file self) (saved_world self w) =
    (bookmarks self, saved_world self w).
Proof.
  intros Hr. unfold _load_bookmarks, saved_world. io_unfold. simpl.
  rewrite lookup_insert_eq. rewrite bool_decide_true by eauto. simpl.
  rewrite Hr, lookup_insert_eq. simpl.
  now rewrite JsonFacts.load_dump.
Qed.

(** C7.  After a save that reported success, loading the backing file (when
    it can be read) yields the collection that was saved: the same records,
    with the same fields, in the same order; a manager built on the file is
    the manager that saved it. *)
Theorem C7_save_then_load (self : BookmarkManager) (w w1 : World) :
  _save_bookmarks self w = (true, w1) ->
  read_fault w1 = false ->
  _load_bookmarks (data_file self) w1 = (bookmarks self, w1) /\
  init (data_file self) w1 = (self, w1).
Proof.
  intros Hs Hr. apply save_true_inv in Hs as [_ ->].
  assert (Hl := load_after_save self w Hr).
  split; [exact Hl|].
  unfold init. io_unfold. unfold mbind, IO_bind. rewrite Hl. now destruct self.
Qed.

Lemma C7_save_then_load_witness :
  _save_bookmarks two_sites demo_world = (true, saved_world two_sites demo_world) /\
  read_fault (saved_world two_sites demo_world) = false /\
  _load_bookmarks demo_path (saved_world two_sites demo_world) =
    (bookmarks two_sites, saved_world two_sites demo_world) /\
  init demo_path (saved_world two_sites demo_world) =
    (two_sites, saved_world two_sites demo_world).
Proof.
  assert (Hs : _save_bookmarks two_sites demo_world =
               (true, saved_world two_sites demo_world)) by reflexivity.
  split; [exact Hs|]. split; [reflexivity|].
  exact (C7_save_then_load two_sites demo_world _ Hs eq_refl).
Defined.

(** ** C8: the tag listing *)

Lemma StronglySorted_strict {A} (R : relation A) `{!AntiSymm (=) R} (l : list A) :
  StronglySorted R l -> NoDup l -> StronglySorted (strict R) l.
Proof.
  induction 1 as [|x l Hl IH Hx]; intros Hnd; constructor.
  - apply IH. now apply NoDup_cons in Hnd as [_ ?].
  - apply NoDup_cons in Hnd as [Hnx _].
    apply Forall_forall. intros y Hy. split.
    + rewrite Forall_forall in Hx. now apply Hx.
    + intros Hyx. apply Hnx.
      rewrite Forall_forall in Hx.
      assert (x = y) as -> by (apply (anti_symm R); auto). exact Hy.
Qed.

(** [sorted(set(l))]: strictly increasing, with the elements of [l]. *)
Lemma sorted_set_of (l : list string) :
  StronglySorted (strict String.le) (sorted (set_of l)) /\
  forall x, x ∈ sorted (set_of l) <-> x ∈ l.
Proof.
  unfold sorted, set_of. split.
  - apply StronglySorted_strict.
    + apply _.
    + apply StronglySorted_merge_sort; apply _.
    + rewrite merge_sort_Permutation. apply NoDup_elements.
  - intros x. rewrite merge_sort_Permutation, elem_of_elements.
    apply elem_of_list_to_set.
Qed.

(** C8.  On a non-empty collection [list_tags] prints the distinct tags in
    strictly increasing order of their code points, so tags that differ in
    letter case only stay apart: over the tags b, a, B it prints B, a, b. *)
Theorem C8_list_tags_sorted_distinct (self : BookmarkManager) (w : World) :
  bookmarks self <> [] ->
  exists tags,
    list_tags self w = (tt, self, set_stdout (stdout w ++ (Line <$> tags)) w) /\
    StronglySorted (strict String.le) tags /\
    (forall t, t ∈ tags <-> exists b, b ∈ bookmarks self /\ tag b = t) /\
    (tag <$> bookmarks self = ["b"; "a"; "B"] -> tags = ["B"; "a"; "b"]).
Proof.
  intros Hne. exists (sorted (set_of (tag <$> bookmarks self))).
  destruct (sorted_set_of (tag <$> bookmarks self)) as [Hs Hm].
  split; [|split; [exact Hs|split]].
  - unfold list_tags. destruct (bookmarks self); [contradiction | reflexivity].
  - intros t. rewrite Hm, list_elem_of_fmap. split; intros (b & H1 & H2); eauto.
  - intros ->. vm_compute. reflexivity.
Qed.

Lemma C8_list_tags_sorted_distinct_witness :
  bookmarks three_tags <> [] /\
  exists tags,
    list_tags three_tags demo_world = (tt, three_tags, set_stdout (Line <$> tags) demo_world) /\
    tags = ["B"; "a"; "b"].
Proof.
  assert (Hne : bookmarks three_tags <> []) by discriminate.
  split; [exact Hne|].
  destruct (C8_list_tags_sorted_distinct three_tags demo_world Hne)
    as (tags & Hrun & _ & _ & Hex).
  exists tags. split; [exact Hrun | exact (Hex eq_refl)].
Defined.

(** ** C10: the operations that only read *)

Lemma only_prints_ret {A} (a : A) : only_prints (mret a).
Proof. intros w. exists a, []. io_unfold. now rewrite set_stdout_app_nil. Qed.

Lemma only_prints_print (x : Message) : only_prints (print x).
Proof. intros w. exists tt, [x]. reflexivity. Qed.

Lemma only_prints_print_all (xs : list Message) : only_prints (print_all xs).
Proof. intros w. exists tt, xs. reflexivity. Qed.

Lemma prints_only_ret {A} (self : BookmarkManager) (a : A) :
  prints_only self (mret (a, self)).
Proof. intros w. exists a, []. io_unfold. now rewrite set_stdout_app_nil. Qed.

Lemma prints_only_bind {A B} (self : BookmarkManager) (m : IO A) (k : A -> Method B) :
  only_prints m -> (forall a, prints_only self (k a)) -> prints_only self (m ≫= k).
Proof.
  intros Hm Hk w. destruct (Hm w) as (a & out & Ea).
  destruct (Hk a (set_stdout (stdout w ++ out) w)) as (b & out' & Eb).
  exists b, (out ++ out'). unfold mbind, IO_bind. rewrite Ea, Eb.
  f_equal. unfold set_stdout. simpl. now rewrite app_assoc.
Qed.

Lemma prints_only_read_only {A} (self : BookmarkManager) (m : Method A) :
  prints_only self m -> read_only self m.
Proof.
  intros H w. destruct (H w) as (a & out & ->). simpl.
  split; [reflexivity|]. split; [reflexivity|]. now exists out.
Qed.

Ltac prints :=
  repeat first
    [ apply prints_only_ret
    | apply prints_only_bind; [| intros []]
    | apply only_prints_print
    | apply only_prints_print_all
    | apply only_prints_ret
    | case_match ].

Lemma list_bookmarks_prints self filter_type filter_value :
  prints_only self (list_bookmarks self filter_type filter_value).
Proof. unfold list_bookmarks. prints. Qed.

Lemma search_bookmarks_prints self query search_type :
  prints_only self (search_bookmarks self query search_type).
Proof. unfold search_bookmarks. prints. Qed.

Lemma list_tags_prints self : prints_only self (list_tags self).
Proof. unfold list_tags. prints. Qed.

Lemma list_titles_prints self : prints_only self (list_titles self).
Proof. unfold list_titles. prints. Qed.

Lemma show_stats_prints self : prints_only self (show_stats self).
Proof. unfold show_stats. prints. Qed.

(** C10.  [list_bookmarks], [search_bookmarks], [list_tags], [list_titles]
    and [show_stats] hand back the manager unchanged and leave every file as
    it was, whatever their arguments: they only add to the output. *)
Theorem C10_read_only_operations (self : BookmarkManager) :
  (forall filter_type filter_value,
     read_only self (list_bookmarks self filter_type filter_value)) /\
  (forall query search_type,
     read_only self (search_bookmarks self query search_type)) /\
  read_only self (list_tags self) /\
  read_only self (list_titles self) /\
  read_only self (show_stats self).
Proof.
  split; [intros; apply prints_only_read_only, list_bookmarks_prints|].
  split; [intros; apply prints_only_read_only, search_bookmarks_prints|].
  split; [apply prints_only_read_only, list_tags_prints|].
  split; [apply prints_only_read_only, list_titles_prints|].
  apply prints_only_read_only, show_stats_prints.
Qed.

(** ** C9: the backing file of [main] *)

Lemma confined_bind {A B} (p : string) (m : IO A) (k : A -> IO B) :
  confined p m -> (forall a, confined p (k a)) -> confined p (m ≫= k).
Proof.
  intros Hm Hk w. unfold mbind, IO_bind.
  destruct (m w) as [a w1] eqn:E.
  destruct (Hm w) as [Hh Hf]. rewrite E in Hh, Hf. simpl in Hh, Hf.
  destruct (Hk a w1) as [Hh' Hf']. split.
  - congruence.
  - intros q Hq. rewrite Hf' by exact Hq. now apply Hf.
Qed.

Lemma only_prints_confined {A} (p : string) (m : IO A) :
  only_prints m -> confined p m.
Proof. intros H w. destruct (H w) as (a & out & ->). now split. Qed.

Lemma confined_write_text (p text : string) : confined p (write_text p text).
Proof.
  intros w. unfold write_text. destruct (write_fault w); simpl; split; auto.
  - intros q Hq. now apply lookup_insert_ne.
  - intros q Hq. now apply lookup_insert_ne.
Qed.

Lemma confined_unchanged {A} (p : string) (m : IO A) :
  (forall w, (m w).2 = w) -> confined p m.
Proof. intros H w. rewrite H. now split. Qed.

Lemma confined_ret {A} (p : string) (a : A) : confined p (mret a).
Proof. now apply confined_unchanged. Qed.

Lemma confined_print (p : string) (x : Message) : confined p (print x).
Proof. apply only_prints_confined, only_prints_print. Qed.

Lemma confined_save (self : BookmarkManager) :
  confined (data_file self) (_save_bookmarks self).
Proof.
  unfold _save_bookmarks. apply confined_bind; [apply confined_write_text|].
  intros []; [apply confined_ret|].
  apply confined_bind; [apply confined_print | intros; apply confined_ret].
Qed.

Lemma confined_load (p : string) : confined p (_load_bookmarks p).
Proof.
  unfold _load_bookmarks.
  apply confined_bind; [now apply confined_unchanged|].
  intros []; simpl; [|apply confined_ret].
  apply confined_bind; [now apply confined_unchanged|].
  intros text. destruct (text ≫= Json.load); [apply confined_ret|].
  apply confined_bind; [apply confined_print|]. intros _.
  apply confined_bind; [apply confined_print | intros; apply confined_ret].
Qed.

Lemma prints_only_keeps_file {A} (self : BookmarkManager) (m : Method A) :
  prints_only self m -> keeps_file self m.
Proof.
  intros H. split; intros w; destruct (H w) as (a & out & ->); simpl; auto.
Qed.

Lemma add_bookmark_keeps_file `{UrlParser} self url title tag :
  keeps_file self (add_bookmark self url title tag).
Proof.
  unfold add_bookmark.
  repeat case_match; try solve [apply prints_only_keeps_file; prints].
  split.
  - apply confined_bind; [apply (confined_save (set_bookmarks _ self))|].
    intros []; [|apply confined_ret].
    apply confined_bind; [|intros; apply confined_ret].
    apply only_prints_confined, only_prints_print_all.
  - intros w. unfold mbind, IO_bind.
    destruct (_save_bookmarks _ w) as [[] w1]; reflexivity.
Qed.

Lemma delete_bookmark_keeps_file self identifier delete_type :
  keeps_file self (delete_bookmark self identifier delete_type).
Proof.
  assert (Hall : forall w,
    let r := delete_bookmark self identifier delete_type w in
    data_file r.1.2 = data_file self /\ home r.2 = home w /\
    forall q, q <> data_file self -> fs r.2 !! q = fs w !! q).
  { intros w r. subst r.
    destruct (decide (PyStr.strip identifier = EmptyString)) as [Hid|Hid].
    { rewrite delete_bookmark_blank by exact Hid. simpl. auto. }
    destruct (decide (to_remove self identifier delete_type = [])) as [HR|HR].
    { rewrite delete_bookmark_not_found by assumption. simpl. auto. }
    rewrite delete_bookmark_found by assumption. cbv zeta.
    destruct (split_deleted _ _) as [[nb cnt] info].
    match goal with |- context [_save_bookmarks ?s ?w0] =>
      pose proof (confined_save s w0) as [Hh Hf];
      destruct (_save_bookmarks s w0) as [[] w1] end; simpl in *; auto. }
  split.
  - intros w. destruct (Hall w) as (_ & Hh & Hf). now split.
  - intros w. now destruct (Hall w).
Qed.

Lemma call_keeps_file {A} self (m : Method A) :
  keeps_file self m -> keeps_file self (call m).
Proof.
  intros [Hc Hd]. split.
  - intros w. specialize (Hc w). unfold call, mbind, IO_bind.
    destruct (m w) as [[a self'] w']. exact Hc.
  - intros w. specialize (Hd w). unfold call, mbind, IO_bind.
    destruct (m w) as [[a self'] w']. exact Hd.
Qed.

Lemma dispatch_keeps_file `{UrlParser} manager cmd :
  keeps_file manager (dispatch manager cmd).
Proof.
  destruct cmd; simpl; repeat case_match;
    try apply call_keeps_file;
    first
      [ apply add_bookmark_keeps_file
      | apply delete_bookmark_keeps_file
      | apply prints_only_keeps_file;
        first
          [ apply list_bookmarks_prints | apply search_bookmarks_prints
          | apply list_tags_prints | apply list_titles_prints
          | apply show_stats_prints | apply prints_only_ret ] ].
Qed.

Lemma init_data_file (p : string) (w : World) : data_file (init p w).1 = p.
Proof.
  unfold init, mbind, IO_bind. now destruct (_load_bookmarks p w).
Qed.

Lemma confined_init (p : string) : confined p (init p).
Proof.
  unfold init. apply confined_bind; [apply confined_load | intros; apply confined_ret].
Qed.

(** C9.  Whatever value [--file] carries, [main] runs the same: it builds
    its manager on the dot-file of the home directory, and it leaves every
    other file as it was. *)
Theorem C9_file_option_ignored `{UrlParser} (cmd : option Command) (file : string)
    (w : World) :
  let path := path_join (home w) ".bookmarks.json" in
  main (mkArgs cmd file) w = main (mkArgs cmd default_file) w /\
  (forall manager,
     (main (mkArgs cmd file) w).1 = Some manager -> data_file manager = path) /\
  (forall q, q <> path -> fs (main (mkArgs cmd file) w).2 !! q = fs w !! q).
Proof.
  intros path. split; [reflexivity|].
  unfold main. simpl. destruct cmd as [cmd|]; [|split; [discriminate | reflexivity]].
  unfold bookmarks_path, mbind, mret, IO_bind, IO_ret, get_home. fold path.
  pose proof (init_data_file path w) as Hi.
  pose proof (confined_init path w) as [_ Hfi].
  destruct (init path w) as [manager w1]. simpl in Hi, Hfi.
  destruct (dispatch_keeps_file manager cmd) as [Hc Hd].
  specialize (Hc w1). specialize (Hd w1). destruct Hc as [_ Hfd].
  destruct (dispatch manager cmd w1) as [[u manager'] w2]. simpl in *.
  split.
  - intros m [= <-]. congruence.
  - intros q Hq. rewrite Hfd by congruence. now apply Hfi.
Qed.

Lemma C9_file_option_ignored_witness :
  other_path <> path_join (home demo_world) ".bookmarks.json" /\
  main (mkArgs (Some (CmdAdd "https://a.com" "A" "t")) other_path) demo_world =
    main (mkArgs (Some (CmdAdd "https://a.com" "A" "t")) default_file) demo_world /\
  (main (mkArgs (Some (CmdAdd "https://a.com" "A" "t")) other_path) demo_world).1
    = Some holder /\
  data_file holder = "/home/u/.bookmarks.json" /\
  fs (main (mkArgs (Some (CmdAdd "https://a.com" "A" "t")) other_path) demo_world).2
    !! other_path = None.
Proof.
  assert (Hne : other_path <> path_join (home demo_world) ".bookmarks.json")
    by (vm_compute; discriminate).
  assert (Hrun : (main (mkArgs (Some (CmdAdd "https://a.com" "A" "t")) other_path)
                    demo_world).1 = Some holder) by (vm_compute; reflexivity).
  destruct (C9_file_option_ignored (Some (CmdAdd "https://a.com" "A" "t"))
              other_path demo_world) as (Hsame & Hfile & Hframe).
  split; [exact Hne|]. split; [exact Hsame|]. split; [exact Hrun|].
  split; [exact (Hfile holder Hrun)|].
  exact (Hframe other_path Hne).
Defined.

(** ** What holds of urls given without surrounding white space *)

Section Trimmed.
Context `{UrlParser}.

(** [add_bookmark] either leaves the manager alone or appends the new
    record after its checks passed. *)
Lemma add_bookmark_cases self url title tag w :
  (add_bookmark self url title tag w).1.2 = self \/
  (add_accepts self url title tag /\
   (add_bookmark self url title tag w).1 =
     (true, set_bookmarks (bookmarks self ++ [new_record url title tag]) self)).
Proof.
  destruct (add_bookmark self url title tag w) as [[[] self'] w'] eqn:E.
  - right. apply add_bookmark_true_inv in E as (Ha & -> & _). auto.
  - left. revert E. unfold add_bookmark.
    repeat case_match; io_unfold; try (intros [= <- <-]; reflexivity).
    destruct (_save_bookmarks _ w) as [[] w1]; simpl; [discriminate|].
    intros [= <- <-]. simpl. rewrite removelast_last. now destruct self.
Qed.

(** An add whose url is the same with and without surrounding white
    space, case apart, keeps the urls unique. *)
Theorem add_keeps_url_unique self url title tag w :
  url_unique (bookmarks self) ->
  PyStr.lower (PyStr.strip url) = PyStr.lower url ->
  url_unique (bookmarks (add_bookmark self url title tag w).1.2).
Proof.
  intros Hu Hs.
  destruct (add_bookmark_cases self url title tag w) as [-> | [Ha ->]]; [exact Hu|].
  simpl. apply url_unique_snoc; [exact Hu|].
  destruct Ha as (_ & Hf & _).
  pose proof (proj1 (find_url_from_None 0 _ _) Hf) as Hnone.
  intros b' Hb'. simpl. rewrite Hs. now apply Hnone.
Qed.


(** After a successful add of a url given without surrounding white space
    the unfiltered listing holds the new record exactly once, at the end,
    and a later add of that url in any letter case is rejected as a
    duplicate and changes nothing. *)
Theorem add_then_list_then_add_again self url title tag w self' w' :
  add_bookmark self url title tag w = (true, self', w') ->
  PyStr.lower (PyStr.strip url) = PyStr.lower url ->
  bookmarks_to_show self' None None = bookmarks self ++ [new_record url title tag] /\
  filter (fun b => url_key b = url_key (new_record url title tag))
         (bookmarks_to_show self' None None) = [new_record url title tag] /\
  forall url2 title2 tag2 w2,
    _validate_url url2 = true ->
    PyStr.lower url2 = PyStr.lower url ->
    add_bookmark self' url2 title2 tag2 w2 =
      (false, self', set_stdout (stdout w2 ++ [ErrDuplicateUrl url2]) w2).
Proof.
  intros E Hs. apply add_bookmark_true_inv in E as ((_ & Hf & _) & -> & _).
  pose proof (proj1 (find_url_from_None 0 _ _) Hf) as Hnone.
  split; [reflexivity|]. split.
  - simpl. rewrite filter_app, filter_cons, decide_True by reflexivity.
    rewrite filter_nil, filter_none; [reflexivity|].
    intros b Hb. unfold url_key. simpl. rewrite Hs. now apply Hnone.
  - intros url2 title2 tag2 w2 Hv He.
    apply add_bookmark_duplicate; [exact Hv|].
    unfold _find_bookmark_by_url. simpl.
    destruct (find_url_from 0 _ url2) eqn:Ef; [discriminate|].
    exfalso. apply (proj1 (find_url_from_None 0 _ _) Ef (new_record url title tag)).
    + apply elem_of_app. right. left.
    + simpl. congruence.
Qed.


End Trimmed.

Lemma add_keeps_url_unique_witness :
  url_unique (bookmarks holder) /\
  PyStr.lower (PyStr.strip "https://b.org") = PyStr.lower "https://b.org" /\
  url_unique (bookmarks (add_bookmark holder "https://b.org" "B" "t" demo_world).1.2).
Proof.
  assert (Hu : url_unique (bookmarks holder)) by apply NoDup_singleton.
  split; [exact Hu|]. split; [reflexivity|].
  exact (add_keeps_url_unique holder "https://b.org" "B" "t" demo_world Hu eq_refl).
Defined.

Lemma add_then_list_then_add_again_witness :
  exists w',
    add_bookmark empty_manager "https://a.com" " A " "t" demo_world = (true, holder, w') /\
    bookmarks_to_show holder None None = [site_a] /\
    add_bookmark holder "HTTPS://A.COM" "Again" "x" w' =
      (false, holder, set_stdout (stdout w' ++ [ErrDuplicateUrl "HTTPS://A.COM"]) w').
Proof.
  eexists. split; [vm_compute; reflexivity|].
  match goal with |- context [set_stdout _ ?w] => set (w' := w) end.
  assert (E : add_bookmark empty_manager "https://a.com" " A " "t" demo_world =
              (true, holder, w')) by (vm_compute; reflexivity).
  destruct (add_then_list_then_add_again _ _ _ _ _ _ _ E eq_refl) as (Hl & _ & Hdup).
  split; [exact Hl|].
  apply Hdup; reflexivity.
Defined.

(** A delete keeps the urls unique, whatever it removes. *)
Theorem delete_keeps_url_unique self identifier delete_type w :
  url_unique (bookmarks self) ->
  url_unique (bookmarks (delete_bookmark self identifier delete_type w).1.2).
Proof.
  intros Hu.
  destruct (decide (PyStr.strip identifier = EmptyString)) as [Hid|Hid].
  { now rewrite delete_bookmark_blank by exact Hid. }
  destruct (decide (to_remove self identifier delete_type = [])) as [HR|HR].
  { now rewrite delete_bookmark_not_found by assumption. }
  rewrite delete_bookmark_found by assumption. cbv zeta.
  rewrite split_deleted_spec.
  destruct (_save_bookmarks _ _) as [[] w1]; simpl; [|exact Hu].
  now apply url_unique_filter.
Qed.

Lemma delete_keeps_url_unique_witness :
  url_unique (bookmarks holder) /\
  url_unique (bookmarks (delete_bookmark holder "https://a.com" "url" demo_world).1.2).
Proof.
  assert (Hu : url_unique (bookmarks holder)) by apply NoDup_singleton.
  split; [exact Hu|].
  exact (delete_keeps_url_unique holder "https://a.com" "url" demo_world Hu).
Defined.

(** Along any run of adds of unpadded urls and of deletes, from a manager
    with unique urls, in whatever worlds the calls are made, the urls stay
    unique. *)
Theorem unpadded_runs_keep_url_unique `{UrlParser} (self self' : BookmarkManager) :
  url_unique (bookmarks self) ->
  rtc unpadded_step self self' ->
  url_unique (bookmarks self').
Proof.
  intros Hu Hrun. induction Hrun as [|a b c Hstep _ IH]; [exact Hu|].
  apply IH. destruct Hstep as [self0 url title tag w Hs | self0 identifier delete_type w].
  - now apply add_keeps_url_unique.
  - now apply delete_keeps_url_unique.
Qed.

Lemma unpadded_runs_keep_url_unique_witness :
  url_unique (bookmarks empty_manager) /\
  rtc unpadded_step empty_manager holder /\
  url_unique (bookmarks holder).
Proof.
  assert (Hu : url_unique (bookmarks empty_manager)) by apply NoDup_nil_2.
  assert (Hrun : rtc unpadded_step empty_manager holder).
  { eapply rtc_l; [|apply rtc_refl].
    exact (step_add empty_manager "https://a.com" "A" "t" demo_world eq_refl). }
  split; [exact Hu|]. split; [exact Hrun|].
  exact (unpadded_runs_keep_url_unique empty_manager holder Hu Hrun).
Defined.

(** ** Rejected adds *)



(** ** Delete by title *)

Lemma url_unique_inj (c : Collection) (b r : Bookmark) :
  url_unique c -> b ∈ c -> r ∈ c -> url_key b = url_key r -> b = r.
Proof.
  intros Hu Hb Hr E.
  apply list_elem_of_lookup in Hb as [i Hi]. apply list_elem_of_lookup in Hr as [j Hj].
  assert (i = j) by (apply (proj1 (url_unique_lookup c) Hu i j b r); auto).
  subst. congruence.
Qed.

(** The records at the indices found by title are the records with that
    title, in order. *)
Lemma find_titles_lookup (pre c : Collection) (t : string) :
  omap (fun idx => (pre ++ c) !! idx) (find_titles_from (length pre) c t) =
    filter (fun b => PyStr.lower (title b) = t) c.
Proof.
  revert pre. induction c as [|b c IH]; intros pre; [reflexivity|].
  assert (IH' : omap (fun idx => (pre ++ b :: c) !! idx)
                  (find_titles_from (S (length pre)) c t) =
                filter (fun b => PyStr.lower (title b) = t) c).
  { rewrite (cons_middle b pre c), app_assoc, <- (IH (pre ++ [b])), length_app.
    simpl. now replace (length pre + 1) with (S (length pre)) by lia. }
  cbn [find_titles_from]. rewrite filter_cons.
  destruct (bool_decide (PyStr.lower (title b) = t)) eqn:E.
  - apply bool_decide_eq_true in E. rewrite decide_True by exact E.
    cbn [omap list_omap]. rewrite list_lookup_middle by reflexivity.
    cbn. now rewrite IH'.
  - apply bool_decide_eq_false in E. rewrite decide_False by exact E. exact IH'.
Qed.

Lemma to_remove_title self identifier :
  to_remove self identifier "title" =
    filter (fun b => PyStr.lower (title b) = PyStr.lower identifier) (bookmarks self).
Proof.
  unfold to_remove, _find_bookmarks_by_title. simpl.
  exact (find_titles_lookup [] (bookmarks self) (PyStr.lower identifier)).
Qed.

Lemma filter_ext_elem {A} (P Q : A -> Prop) `{forall x, Decision (P x)}
    `{forall x, Decision (Q x)} (l : list A) :
  (forall x, x ∈ l -> (P x <-> Q x)) -> filter P l = filter Q l.
Proof.
  induction l as [|x l IH]; intros Hl; [reflexivity|].
  rewrite !filter_cons.
  assert (Hx : P x <-> Q x) by (apply Hl; left).
  rewrite IH by (intros y Hy; apply Hl; now right).
  destruct (decide (P x)), (decide (Q x)); tauto.
Qed.

(** On a collection with unique urls, when the save goes through, delete in
    title mode with an identifier that is not blank removes the records
    whose title equals it case-insensitively, all of them and no other, and
    reports how many they were. *)
Theorem delete_by_title_removes_all self identifier w :
  url_unique (bookmarks self) ->
  PyStr.strip identifier <> EmptyString ->
  write_fault w = NoFault ->
  filter (fun b => PyStr.lower (title b) = PyStr.lower identifier) (bookmarks self) <> [] ->
  exists w',
    delete_bookmark self identifier "title" w =
      (true,
       set_bookmarks
         (filter (fun b => PyStr.lower (title b) <> PyStr.lower identifier) (bookmarks self))
         self,
       w') /\
    Deleted (length (filter (fun b => PyStr.lower (title b) = PyStr.lower identifier)
                            (bookmarks self))) ∈ stdout w'.
Proof.
  intros Hu Hid Hw Hhit.
  pose proof (to_remove_title self identifier) as HR.
  rewrite delete_bookmark_found; [|exact Hid | now rewrite HR].
  cbv zeta. rewrite split_deleted_spec, HR.
  set (hit := fun b => PyStr.lower (title b) = PyStr.lower identifier) in *.
  assert (Hdel : forall b, b ∈ bookmarks self ->
            (is_deleted (filter hit (bookmarks self)) b = true <-> hit b)).
  { intros b Hb. unfold is_deleted. rewrite existsb_exists. split.
    - intros (r & Hr & E). apply list_elem_of_In, list_elem_of_filter in Hr as [Hr Hrc].
      apply same_ci_true in E.
      now rewrite (url_unique_inj _ b r Hu Hb Hrc E).
    - intros Hb'. exists b. split; [|now apply same_ci_true].
      apply list_elem_of_In, list_elem_of_filter. auto. }
  rewrite (filter_ext_elem (fun b => is_deleted _ b = false) (fun b => ~ hit b)).
  2: { intros b Hb. rewrite <- (Hdel b Hb). now destruct (is_deleted _ b). }
  rewrite (filter_ext_elem (fun b => is_deleted _ b = true) hit) by exact Hdel.
  rewrite save_ok by exact Hw.
  eexists. split; [reflexivity|].
  simpl. apply elem_of_app. right. left.
Qed.

Lemma delete_by_title_removes_all_witness :
  exists w',
    delete_bookmark twins "same" "title" demo_world =
      (true, mkManager demo_path [mkBookmark "https://2.example" "Other" "y"], w') /\
    Deleted 2 ∈ stdout w'.
Proof.
  assert (Hu : url_unique (bookmarks twins)).
  { unfold url_unique. apply (bool_decide_unpack _). vm_compute. exact I. }
  destruct (delete_by_title_removes_all twins "same" demo_world Hu)
    as (w' & Hrun & Hout); [vm_compute; discriminate | reflexivity | discriminate |].
  exists w'. split; [exact Hrun | exact Hout].
Defined.

(** * More of the program *)

(** ** The two finders *)

Lemma find_url_from_ge (i k : nat) (c : Collection) (u : string) :
  find_url_from i c u = Some k -> i <= k.
Proof.
  intros H. apply find_url_from_Some in H as (pre & b & post & _ & -> & _). lia.
Qed.

(** [_find_bookmark_by_url] returns the position of the first record whose
    url equals the argument case-insensitively, a position that exists, and
    [None] only when no record matches. *)
Theorem find_bookmark_by_url_first (self : BookmarkManager) (u : string) :
  match _find_bookmark_by_url self u with
  | Some i =>
      exists b,
        bookmarks self !! i = Some b /\
        PyStr.lower (url b) = PyStr.lower u /\
        forall j b', j < i -> bookmarks self !! j = Some b' ->
                     PyStr.lower (url b') <> PyStr.lower u
  | None => forall b, b ∈ bookmarks self -> PyStr.lower (url b) <> PyStr.lower u
  end.
Proof.
  unfold _find_bookmark_by_url.
  destruct (find_url_from 0 (bookmarks self) u) as [i|] eqn:E.
  - apply find_url_from_Some in E as (pre & b & post & Hc & -> & Hb & Hpre).
    exists b. rewrite Hc. split; [now apply list_lookup_middle|]. split; [exact Hb|].
    intros j b' Hj Hl. simpl in Hj. rewrite lookup_app_l in Hl by exact Hj.
    apply Hpre. eapply list_elem_of_lookup_2. exact Hl.
  - now apply (find_url_from_None 0).
Qed.

Lemma find_titles_from_elem (i k : nat) (c : Collection) (t : string) :
  k ∈ find_titles_from i c t <->
  exists b, i <= k /\ c !! (k - i) = Some b /\ PyStr.lower (title b) = t.
Proof.
  revert i. induction c as [|x c IH]; intros i; simpl.
  - split; [intros H; inversion H | intros (b & _ & H & _); discriminate].
  - assert (Hrest : k ∈ find_titles_from (S i) c t <->
              exists b, S i <= k /\ (x :: c) !! (k - i) = Some b /\ PyStr.lower (title b) = t).
    { rewrite IH. split; intros (b & Hk & Hl & Hb); exists b; (split; [lia|]);
        (split; [|exact Hb]).
      - replace (k - i) with (S (k - S i)) by lia. exact Hl.
      - replace (k - i) with (S (k - S i)) in Hl by lia. exact Hl. }
    destruct (bool_decide (PyStr.lower (title x) = t)) eqn:E.
    + apply bool_decide_eq_true in E. rewrite elem_of_cons, Hrest. split.
      * intros [-> | (b & Hk & Hl & Hb)].
        -- exists x. rewrite Nat.sub_diag. auto.
        -- exists b. auto with lia.
      * intros (b & Hk & Hl & Hb).
        destruct (decide (k = i)) as [->|Hne]; [now left|].
        right. exists b. auto with lia.
    + apply bool_decide_eq_false in E. rewrite Hrest. split.
      * intros (b & Hk & Hl & Hb). exists b. auto with lia.
      * intros (b & Hk & Hl & Hb).
        destruct (decide (k = i)) as [->|Hne].
        -- rewrite Nat.sub_diag in Hl. simpl in Hl. congruence.
        -- exists b. auto with lia.
Qed.

Lemma find_titles_from_sorted (i : nat) (c : Collection) (t : string) :
  StronglySorted lt (find_titles_from i c t) /\
  Forall (le i) (find_titles_from i c t).
Proof.
  revert i. induction c as [|x c IH]; intros i; simpl.
  - split; constructor.
  - destruct (IH (S i)) as [Hs Hf].
    assert (Hf' : Forall (le i) (find_titles_from (S i) c t)).
    { eapply Forall_impl; [exact Hf|]. simpl. intros; lia. }
    destruct (bool_decide _); [|auto].
    split; constructor; auto.
Qed.

(** [_find_bookmarks_by_title] returns, in increasing order and each once,
    the positions of the records whose title equals the argument
    case-insensitively: every such position, and no other. *)
Theorem find_bookmarks_by_title_all (self : BookmarkManager) (t : string) :
  StronglySorted lt (_find_bookmarks_by_title self t) /\
  forall i,
    i ∈ _find_bookmarks_by_title self t <->
    exists b, bookmarks self !! i = Some b /\ PyStr.lower (title b) = PyStr.lower t.
Proof.
  unfold _find_bookmarks_by_title. split.
  - apply find_titles_from_sorted.
  - intros i. rewrite find_titles_from_elem. rewrite Nat.sub_0_r.
    split; intros (b & H); exists b; intuition lia.
Qed.

(** ** Searches that find nothing *)

Lemma search_tag_none (q : string) (c : Collection) :
  (forall b, b ∈ c -> ~ PyStr.substring_of q (PyStr.lower (tag b))) ->
  search_tag q c = [].
Proof.
  intros H. rewrite search_tag_filter, filter_none; [reflexivity | exact H].
Qed.

(** What [search_bookmarks] does when it has nothing to report: a blank
    query is refused with a message, in either mode; with a query that is
    not blank, title mode returns [None] when no title contains it, tag mode
    returns the empty list when no tag contains it, and any other mode
    returns [None]; these three print nothing.  The manager is never
    changed. *)
Theorem search_without_result (self : BookmarkManager) (query search_type : string)
    (w : World) :
  (PyStr.strip query = EmptyString ->
     search_bookmarks self query search_type w =
       (ResNone, self, set_stdout (stdout w ++ [ErrEmptyQuery]) w)) /\
  (PyStr.strip query <> EmptyString ->
     (search_type = "title" ->
      (forall b, b ∈ bookmarks self ->
         ~ PyStr.substring_of (PyStr.lower query) (PyStr.lower (title b))) ->
      search_bookmarks self query search_type w = (ResNone, self, w)) /\
     (search_type = "tag" ->
      (forall b, b ∈ bookmarks self ->
         ~ PyStr.substring_of (PyStr.lower query) (PyStr.lower (tag b))) ->
      search_bookmarks self query search_type w = (ResTitles [], self, w)) /\
     (search_type <> "title" -> search_type <> "tag" ->
      search_bookmarks self query search_type w = (ResNone, self, w))).
Proof.
  unfold search_bookmarks. split.
  - intros Hq. apply PyStrFacts.is_empty_true in Hq. now rewrite Hq.
  - intros Hq. apply PyStrFacts.is_empty_false in Hq. rewrite Hq.
    split; [|split].
    + intros -> Hnone. simpl. now rewrite search_title_none.
    + intros -> Hnone. simpl. rewrite search_tag_none by exact Hnone.
      io_unfold. simpl. now rewrite set_stdout_app_nil.
    + intros H1 H2. now rewrite !bool_decide_false by assumption.
Qed.

Lemma search_without_result_witness :
  search_bookmarks holder blank "title" demo_world =
    (ResNone, holder, set_stdout [ErrEmptyQuery] demo_world) /\
  search_bookmarks holder "zzz" "title" demo_world = (ResNone, holder, demo_world) /\
  search_bookmarks holder "zzz" "tag" demo_world = (ResTitles [], holder, demo_world) /\
  search_bookmarks holder "A" "url" demo_world = (ResNone, holder, demo_world).
Proof.
  assert (Hz : PyStr.strip "zzz" <> EmptyString) by (vm_compute; discriminate).
  assert (Ha : PyStr.strip "A" <> EmptyString) by (vm_compute; discriminate).
  split; [|split; [|split]].
  - destruct (search_without_result holder blank "title" demo_world) as [Hb _].
    exact (Hb eq_refl).
  - destruct (search_without_result holder "zzz" "title" demo_world) as [_ Hn].
    destruct (Hn Hz) as (Ht & _ & _). apply Ht; [reflexivity|].
    intros b Hb Hs. apply list_elem_of_singleton in Hb as ->.
    apply PyStrFacts.contains_spec in Hs. vm_compute in Hs. discriminate.
  - destruct (search_without_result holder "zzz" "tag" demo_world) as [_ Hn].
    destruct (Hn Hz) as (_ & Hg & _). apply Hg; [reflexivity|].
    intros b Hb Hs. apply list_elem_of_singleton in Hb as ->.
    apply PyStrFacts.contains_spec in Hs. vm_compute in Hs. discriminate.
  - destruct (search_without_result holder "A" "url" demo_world) as [_ Hn].
    destruct (Hn Ha) as (_ & _ & Ho). apply Ho; discriminate.
Defined.

(** ** Delete: every record with the url, and the rejections *)

Lemma delete_by_url_filter (self : BookmarkManager) (identifier : string)
    (w : World) :
  PyStr.strip identifier <> EmptyString ->
  write_fault w = NoFault ->
  (exists b, b ∈ bookmarks self /\ PyStr.lower (url b) = PyStr.lower identifier) ->
  let gone := filter (fun b => PyStr.lower (url b) = PyStr.lower identifier) (bookmarks self) in
  let kept := filter (fun b => PyStr.lower (url b) <> PyStr.lower identifier) (bookmarks self) in
  exists w',
    delete_bookmark self identifier "url" w = (true, set_bookmarks kept self, w') /\
    stdout w' =
      stdout w ++ Deleted (length gone) :: ((fun b => DeletedItem (title b) (url b)) <$> gone) /\
    fs w' !! data_file self = Some (Json.dump kept).
Proof.
  intros Hid Hw (b0 & Hb0 & Hk0) gone kept.
  destruct (find_url_from 0 (bookmarks self) identifier) as [i|] eqn:Ef.
  2: { exfalso. exact (proj1 (find_url_from_None 0 _ _) Ef b0 Hb0 Hk0). }
  apply find_url_from_Some in Ef as (pre & b & post & Hc & _ & Hb & Hpre).
  assert (HR : to_remove self identifier "url" = [b])
    by (apply (to_remove_url_first _ _ pre b post); auto).
  rewrite delete_bookmark_found; [|exact Hid | rewrite HR; discriminate].
  rewrite HR. cbv zeta. rewrite split_deleted_spec.
  assert (Hdel : forall x, is_deleted [b] x = true <->
                           PyStr.lower (url x) = PyStr.lower identifier).
  { intros x. rewrite is_deleted_single. unfold url_key. rewrite Hb. reflexivity. }
  rewrite (list_filter_iff (fun x => is_deleted [b] x = false)
             (fun x => PyStr.lower (url x) <> PyStr.lower identifier)).
  2: { intros x. rewrite <- Hdel. now destruct (is_deleted [b] x). }
  rewrite (list_filter_iff (fun x => is_deleted [b] x = true)
             (fun x => PyStr.lower (url x) = PyStr.lower identifier)) by exact Hdel.
  rewrite save_ok by exact Hw.
  eexists. split; [reflexivity|]. split.
  - simpl. now rewrite app_nil_r.
  - simpl. apply lookup_insert_eq.
Qed.

(** Delete in url mode, with an identifier that is not blank and matches
    some url, when the save goes through: every record whose url equals the
    identifier case-insensitively is removed, also when there are several,
    the others keep their order, the count and the removed records are
    reported, and the file holds the text of what is left. *)
Theorem delete_by_url_removes_every_match (self : BookmarkManager) (identifier : string)
    (w : World) :
  PyStr.strip identifier <> EmptyString ->
  write_fault w = NoFault ->
  (exists b, b ∈ bookmarks self /\ PyStr.lower (url b) = PyStr.lower identifier) ->
  let gone := filter (fun b => PyStr.lower (url b) = PyStr.lower identifier) (bookmarks self) in
  let kept := filter (fun b => PyStr.lower (url b) <> PyStr.lower identifier) (bookmarks self) in
  exists w',
    delete_bookmark self identifier "url" w = (true, set_bookmarks kept self, w') /\
    stdout w' =
      stdout w ++ Deleted (length gone) :: ((fun b => DeletedItem (title b) (url b)) <$> gone) /\
    fs w' !! data_file self = Some (Json.dump kept).
Proof. apply delete_by_url_filter. Qed.

Lemma delete_by_url_removes_every_match_witness :
  exists w',
    delete_bookmark doubled "https://A.com" "url" demo_world =
      (true, mkManager demo_path [mkBookmark "https://b.org" "B" "t"], w') /\
    stdout w' =
      [Deleted 2; DeletedItem "A" "https://a.com"; DeletedItem "A2" "HTTPS://A.COM"].
Proof.
  destruct (delete_by_url_removes_every_match doubled "https://A.com" demo_world)
    as (w' & Hrun & Hout & _).
  - vm_compute. discriminate.
  - reflexivity.
  - exists (mkBookmark "https://a.com" "A" "t"). split; [left | reflexivity].
  - exists w'. split; [exact Hrun | exact Hout].
Defined.

Lemma to_remove_other_mode self identifier delete_type :
  delete_type <> "url" -> delete_type <> "title" ->
  to_remove self identifier delete_type = [].
Proof. intros H1 H2. unfold to_remove. now rewrite !bool_decide_false by assumption. Qed.

(** [delete_bookmark] refuses a blank identifier with a message of its own,
    in any mode; with an identifier that is not blank it reports that
    nothing was found when no title equals it (title mode) and when the
    mode is neither url nor title.  Each refusal returns [False] and leaves
    the manager and the files alone. *)
Theorem delete_bookmark_rejections (self : BookmarkManager) (identifier delete_type : string)
    (w : World) :
  (PyStr.strip identifier = EmptyString ->
     delete_bookmark self identifier delete_type w =
       (false, self, set_stdout (stdout w ++ [ErrEmptyIdentifier delete_type]) w)) /\
  (PyStr.strip identifier <> EmptyString ->
   delete_type = "title" ->
   (forall b, b ∈ bookmarks self -> PyStr.lower (title b) <> PyStr.lower identifier) ->
     delete_bookmark self identifier delete_type w =
       (false, self, set_stdout (stdout w ++ [ErrNotFound "title" identifier]) w)) /\
  (PyStr.strip identifier <> EmptyString ->
   delete_type <> "url" -> delete_type <> "title" ->
     delete_bookmark self identifier delete_type w =
       (false, self, set_stdout (stdout w ++ [ErrNotFound delete_type identifier]) w)).
Proof.
  split; [|split].
  - apply delete_bookmark_blank.
  - intros Hid -> Hnone. apply delete_bookmark_not_found; [exact Hid|].
    rewrite to_remove_title. now apply filter_none.
  - intros Hid H1 H2. apply delete_bookmark_not_found; [exact Hid|].
    now apply to_remove_other_mode.
Qed.

Lemma delete_bookmark_rejections_witness :
  delete_bookmark holder blank "title" demo_world =
    (false, holder, set_stdout [ErrEmptyIdentifier "title"] demo_world) /\
  delete_bookmark holder "Nope" "title" demo_world =
    (false, holder, set_stdout [ErrNotFound "title" "Nope"] demo_world) /\
  delete_bookmark holder "https://a.com" "tag" demo_world =
    (false, holder, set_stdout [ErrNotFound "tag" "https://a.com"] demo_world).
Proof.
  split; [|split].
  - destruct (delete_bookmark_rejections holder blank "title" demo_world) as (H & _ & _).
    exact (H eq_refl).
  - destruct (delete_bookmark_rejections holder "Nope" "title" demo_world) as (_ & H & _).
    apply H; [vm_compute; discriminate | reflexivity |].
    intros b Hb. apply list_elem_of_singleton in Hb as ->. vm_compute. discriminate.
  - destruct (delete_bookmark_rejections holder "https://a.com" "tag" demo_world)
      as (_ & _ & H).
    apply H; [vm_compute; discriminate | discriminate | discriminate].
Defined.

(** ** Listings *)

Lemma enumerate_from_imap {A} (i : nat) (body : nat -> A -> list Message) (l : list A) :
  enumerate_from i body l = mjoin (imap (fun k x => body (i + k) x) l).
Proof.
  revert i. induction l as [|x l IH]; intros i; [reflexivity|].
  simpl. rewrite Nat.add_0_r. f_equal. rewrite IH. f_equal.
  apply imap_ext. intros k y _. simpl. f_equal. lia.
Qed.

Lemma print_thrice (a b : Message) (ms : list Message) (self : BookmarkManager) (w : World) :
  (print a;; print b;; print_all ms;; mret (tt, self)) w =
    (tt, self, set_stdout (stdout w ++ a :: b :: ms) w).
Proof.
  io_unfold. unfold set_stdout. simpl. now rewrite <- !app_assoc.
Qed.

(** What [list_bookmarks] prints.  Without a filter: every record, in
    insertion order.  With a title (or tag) filter whose value is not empty:
    the records whose title (or tag) equals the value case-insensitively, in
    insertion order.  In each case the header carries the number of records
    shown and the records are numbered from 1; when there is none, a single
    line says so.  The manager is not changed. *)
Theorem list_bookmarks_report (self : BookmarkManager) (w : World) :
  list_bookmarks self None None w =
    (tt, self,
     set_stdout
       (stdout w ++
        listing NoBookmarks (FoundAll (length (bookmarks self))) (bookmarks self)) w) /\
  (forall v, v <> EmptyString ->
     let hits := filter (fun b => PyStr.lower (title b) = PyStr.lower v) (bookmarks self) in
     list_bookmarks self (Some "title") (Some v) w =
       (tt, self,
        set_stdout
          (stdout w ++
           listing (NoneFoundWith "title" (Some v))
                   (FoundWith (length hits) "title" (Some v)) hits) w)) /\
  (forall v, v <> EmptyString ->
     let hits := filter (fun b => PyStr.lower (tag b) = PyStr.lower v) (bookmarks self) in
     list_bookmarks self (Some "tag") (Some v) w =
       (tt, self,
        set_stdout
          (stdout w ++
           listing (NoneFoundWith "tag" (Some v))
                   (FoundWith (length hits) "tag" (Some v)) hits) w)).
Proof.
  split; [|split].
  - unfold list_bookmarks, listing, numbered. simpl.
    destruct (bookmarks self) as [|b c] eqn:E; [reflexivity|].
    rewrite print_thrice. now rewrite enumerate_from_imap.
  - intros v Hv hits. unfold list_bookmarks, listing, numbered.
    assert (Hshow : bookmarks_to_show self (Some "title") (Some v) = hits).
    { unfold bookmarks_to_show. simpl. apply PyStrFacts.is_empty_false in Hv.
      rewrite Hv. simpl. apply list_filter_iff. intros b. split.
      - intros [[_ H] | [H _]]; [exact H | discriminate H].
      - intros H. left. auto. }
    rewrite Hshow. simpl.
    destruct hits as [|b c] eqn:E; [reflexivity|].
    rewrite print_thrice. now rewrite enumerate_from_imap.
  - intros v Hv hits. unfold list_bookmarks, listing, numbered.
    assert (Hshow : bookmarks_to_show self (Some "tag") (Some v) = hits).
    { unfold bookmarks_to_show. simpl. apply PyStrFacts.is_empty_false in Hv.
      rewrite Hv. simpl. apply list_filter_iff. intros b. split.
      - intros [[H _] | [_ H]]; [discriminate H | exact H].
      - intros H. right. auto. }
    rewrite Hshow. simpl.
    destruct hits as [|b c] eqn:E; [reflexivity|].
    rewrite print_thrice. now rewrite enumerate_from_imap.
Qed.

Lemma list_bookmarks_report_witness :
  list_bookmarks three_tags (Some "tag") (Some "B") demo_world =
    (tt, three_tags,
     set_stdout
       [FoundWith 2 "tag" (Some "B"); Rule;
        ItemTitle 1 "One"; ItemUrl "https://1.example"; ItemTag "b"; Blank;
        ItemTitle 2 "Three"; ItemUrl "https://3.example"; ItemTag "B"; Blank]
       demo_world) /\
  list_bookmarks three_tags (Some "title") (Some "four") demo_world =
    (tt, three_tags, set_stdout [NoneFoundWith "title" (Some "four")] demo_world).
Proof.
  destruct (list_bookmarks_report three_tags demo_world) as (_ & Ht & Hg).
  split.
  - apply (Hg "B"). discriminate.
  - apply (Ht "four"). discriminate.
Defined.

(** ** Titles and statistics *)

(** [list_titles] prints one line saying there is no bookmark on an empty
    collection; otherwise it prints the distinct titles in strictly
    increasing order of their code points, each title of the collection
    once and nothing else. *)
Theorem list_titles_sorted_distinct (self : BookmarkManager) (w : World) :
  (bookmarks self = [] ->
     list_titles self w = (tt, self, set_stdout (stdout w ++ [NoBookmarks]) w)) /\
  (bookmarks self <> [] ->
     exists titles,
       list_titles self w = (tt, self, set_stdout (stdout w ++ (Line <$> titles)) w) /\
       StronglySorted (strict String.le) titles /\
       forall t, t ∈ titles <-> exists b, b ∈ bookmarks self /\ title b = t).
Proof.
  split.
  - intros E. unfold list_titles. now rewrite E.
  - intros Hne. exists (sorted (set_of (title <$> bookmarks self))).
    destruct (sorted_set_of (title <$> bookmarks self)) as [Hs Hm].
    split; [|split; [exact Hs|]].
    + unfold list_titles. destruct (bookmarks self); [contradiction | reflexivity].
    + intros t. rewrite Hm, list_elem_of_fmap. split; intros (b & H1 & H2); eauto.
Qed.

Lemma list_titles_sorted_distinct_witness :
  list_titles empty_manager demo_world =
    (tt, empty_manager, set_stdout [NoBookmarks] demo_world) /\
  exists titles,
    list_titles twins demo_world = (tt, twins, set_stdout (Line <$> titles) demo_world) /\
    forall t, t ∈ titles <-> exists b, b ∈ bookmarks twins /\ title b = t.
Proof.
  destruct (list_titles_sorted_distinct empty_manager demo_world) as [He _].
  destruct (list_titles_sorted_distinct twins demo_world) as [_ Hn].
  split; [exact (He eq_refl)|].
  destruct (Hn ltac:(discriminate)) as (titles & Hrun & _ & Hm).
  exists titles. split; [exact Hrun | exact Hm].
Defined.

Lemma sorted_length (s : gset string) : length (sorted s) = size s.
Proof. unfold sorted. now rewrite merge_sort_Permutation. Qed.

(** [show_stats] prints one line saying there is no bookmark on an empty
    collection; otherwise it prints the number of records, the number of
    distinct tags, which lies between 1 and the number of records, the path
    of the data file, and always a line with the distinct tags in increasing
    order, separated by a comma and a space. *)
Theorem show_stats_report (self : BookmarkManager) (w : World) :
  (bookmarks self = [] ->
     show_stats self w = (tt, self, set_stdout (stdout w ++ [NoBookmarks]) w)) /\
  (bookmarks self <> [] ->
     exists tags,
       show_stats self w =
         (tt, self,
          set_stdout
            (stdout w ++
             [StatsHeader; StatsTotal (length (bookmarks self));
              StatsUniqueTags (length tags); StatsDataFile (data_file self);
              StatsTags (PyStr.join ", " tags)]) w) /\
       StronglySorted (strict String.le) tags /\
       (forall t, t ∈ tags <-> exists b, b ∈ bookmarks self /\ tag b = t) /\
       1 <= length tags <= length (bookmarks self)).
Proof.
  split.
  - intros E. unfold show_stats. now rewrite E.
  - intros Hne. exists (sorted (set_of (tag <$> bookmarks self))).
    destruct (sorted_set_of (tag <$> bookmarks self)) as [Hs Hm].
    assert (Hmem : forall t, t ∈ sorted (set_of (tag <$> bookmarks self)) <->
                             exists b, b ∈ bookmarks self /\ tag b = t).
    { intros t. rewrite Hm, list_elem_of_fmap. split; intros (b & H1 & H2); eauto. }
    assert (Hnd : NoDup (sorted (set_of (tag <$> bookmarks self)))).
    { unfold sorted. rewrite merge_sort_Permutation. apply NoDup_elements. }
    destruct (bookmarks self) as [|b0 c] eqn:E; [contradiction|].
    assert (Hin : tag b0 ∈ sorted (set_of (tag <$> b0 :: c))).
    { apply Hmem. exists b0. split; [left | reflexivity]. }
    split; [|split; [exact Hs | split; [exact Hmem|]]].
    + unfold show_stats. rewrite E.
      rewrite bool_decide_false.
      2: { intros Hemp.
           assert (Hset : tag b0 ∈ set_of (tag <$> b0 :: c))
             by (apply elem_of_list_to_set; now apply Hm).
           rewrite Hemp in Hset. now apply not_elem_of_empty in Hset. }
      rewrite sorted_length. io_unfold. unfold set_stdout. simpl.
      now rewrite <- !app_assoc.
    + split.
      * destruct (sorted _) as [|x l]; [inversion Hin | simpl; lia].
      * replace (length (b0 :: c)) with (length (tag <$> b0 :: c)) by apply length_fmap.
        apply submseteq_length, NoDup_submseteq; [exact Hnd|].
        intros x Hx. now apply Hm.
Qed.

Lemma show_stats_report_witness :
  show_stats empty_manager demo_world =
    (tt, empty_manager, set_stdout [NoBookmarks] demo_world) /\
  exists tags,
    show_stats doubled demo_world =
      (tt, doubled,
       set_stdout
         [StatsHeader; StatsTotal 3; StatsUniqueTags (length tags);
          StatsDataFile demo_path; StatsTags (PyStr.join ", " tags)] demo_world) /\
    (forall t, t ∈ tags <-> exists b, b ∈ bookmarks doubled /\ tag b = t) /\
    1 <= length tags <= 3.
Proof.
  destruct (show_stats_report empty_manager demo_world) as [He _].
  destruct (show_stats_report doubled demo_world) as [_ Hn].
  split; [exact (He eq_refl)|].
  destruct (Hn ltac:(discriminate)) as (tags & Hrun & _ & Hm & Hlen).
  exists tags. split; [exact Hrun|]. split; [exact Hm | exact Hlen].
Defined.

(** ** Stored records are trimmed *)

Module StripFacts.
Import PyStr.

Lemma lstrip_no_lead (s : string) : no_lead (lstrip s).
Proof.
  induction s as [|c s IH]; simpl; [exact I|].
  destruct (isspace c) eqn:E; [exact IH | exact E].
Qed.

Lemma lstrip_id (s : string) : no_lead s -> lstrip s = s.
Proof. destruct s as [|c s]; simpl; [reflexivity|]. now intros ->. Qed.

Lemma rstrip_no_lead (s : string) : no_lead s -> no_lead (rstrip s).
Proof.
  destruct s as [|c s]; simpl; [auto|]. intros Hc.
  destruct (rstrip s); [rewrite Hc|]; exact Hc.
Qed.

Lemma rstrip_idempotent (s : string) : rstrip (rstrip s) = rstrip s.
Proof.
  induction s as [|c s IH]; [reflexivity|]. simpl.
  destruct (rstrip s) as [|d r] eqn:E.
  - destruct (isspace c) eqn:Ec; [reflexivity|]. simpl. now rewrite Ec.
  - cbn [rstrip]. cbn [rstrip] in IH. now rewrite IH.
Qed.

Lemma strip_idempotent (s : string) : strip (strip s) = strip s.
Proof.
  unfold strip.
  rewrite (lstrip_id (rstrip (lstrip s))) by apply rstrip_no_lead, lstrip_no_lead.
  apply rstrip_idempotent.
Qed.

End StripFacts.

Lemma new_record_tidy (url title tag : string) :
  PyStr.strip title <> EmptyString -> PyStr.strip tag <> EmptyString ->
  tidy (new_record url title tag).
Proof.
  intros Ht Hg. unfold tidy, trimmed, new_record. simpl.
  rewrite !StripFacts.strip_idempotent. auto.
Qed.

(** A delete hands back the collection it was given or a filtering of it. *)
Lemma delete_bookmark_cases self identifier delete_type w :
  let c' := bookmarks (delete_bookmark self identifier delete_type w).1.2 in
  c' = bookmarks self \/
  exists R, c' = filter (fun b => is_deleted R b = false) (bookmarks self).
Proof.
  cbv zeta.
  destruct (decide (PyStr.strip identifier = EmptyString)) as [Hid|Hid].
  { left. now rewrite delete_bookmark_blank by exact Hid. }
  destruct (decide (to_remove self identifier delete_type = [])) as [HR|HR].
  { left. now rewrite delete_bookmark_not_found by assumption. }
  rewrite delete_bookmark_found by assumption. cbv zeta.
  rewrite split_deleted_spec.
  destruct (_save_bookmarks _ _) as [[] w1]; simpl; [right; eauto | now left].
Qed.

(** Along any run of adds and deletes, whatever their arguments and
    whatever the I/O does, if every record starts with trimmed fields and a
    title and a tag that are not empty, every record ends so. *)
Theorem runs_keep_records_tidy `{UrlParser} (self self' : BookmarkManager) :
  Forall tidy (bookmarks self) ->
  rtc any_step self self' ->
  Forall tidy (bookmarks self').
Proof.
  intros Ht Hrun. induction Hrun as [|a b c Hstep _ IH]; [exact Ht|].
  apply IH. destruct Hstep as [self0 url title tag w | self0 identifier delete_type w].
  - destruct (add_bookmark_cases self0 url title tag w) as [-> | [Ha ->]]; [exact Ht|].
    simpl. apply Forall_app. split; [exact Ht|].
    apply Forall_singleton. destruct Ha as (_ & _ & H1 & H2).
    now apply new_record_tidy.
  - destruct (delete_bookmark_cases self0 identifier delete_type w) as [-> | [R ->]];
      [exact Ht|].
    apply Forall_forall. intros x Hx. apply list_elem_of_filter in Hx as [_ Hx].
    rewrite Forall_forall in Ht. now apply Ht.
Qed.

Lemma runs_keep_records_tidy_witness :
  Forall tidy (bookmarks empty_manager) /\
  rtc any_step empty_manager holder /\
  Forall tidy (bookmarks holder).
Proof.
  assert (Ht : Forall tidy (bookmarks empty_manager)) by constructor.
  assert (Hrun : rtc any_step empty_manager holder).
  { eapply rtc_l; [|apply rtc_refl].
    exact (any_add empty_manager "https://a.com " "  A" "t  " demo_world). }
  split; [exact Ht|]. split; [exact Hrun|].
  exact (runs_keep_records_tidy empty_manager holder Ht Hrun).
Defined.

(** ** Loading, and the next run *)

Lemma load_cases (p : string) (w : World) :
  _load_bookmarks p w =
    match fs w !! p with
    | None => ([], w)
    | Some text =>
        match (if read_fault w then None else Json.load text) with
        | Some c => (c, w)
        | None => ([], set_stdout (stdout w ++ [ErrLoad; StartingEmpty]) w)
        end
    end.
Proof.
  unfold _load_bookmarks. io_unfold.
  destruct (fs w !! p) as [text|] eqn:E.
  - rewrite bool_decide_true by eauto. simpl. rewrite E.
    destruct (read_fault w); simpl.
    + unfold set_stdout. simpl. now rewrite <- app_assoc.
    + destruct (Json.load text); simpl; [reflexivity|].
      unfold set_stdout. simpl. now rewrite <- app_assoc.
  - rewrite bool_decide_false by (intros [? ?]; discriminate). reflexivity.
Qed.



Lemma load_stdout_indep (p : string) (o : list Message) (w : World) :
  (_load_bookmarks p (set_stdout o w)).1 = (_load_bookmarks p w).1.
Proof.
  rewrite !load_cases. simpl.
  destruct (fs w !! p) as [text|]; [|reflexivity].
  destruct (if read_fault w then None else Json.load text); reflexivity.
Qed.

Lemma load_only_prints (p : string) : only_prints (_load_bookmarks p).
Proof.
  intros w. rewrite load_cases.
  destruct (fs w !! p) as [text|].
  - destruct (if read_fault w then None else Json.load text) as [c|].
    + exists c, []. now rewrite set_stdout_app_nil.
    + eexists _, _. reflexivity.
  - exists [], []. now rewrite set_stdout_app_nil.
Qed.

Lemma prints_only_outcome {A} (self : BookmarkManager) (m : Method A) (w : World) :
  prints_only self m -> outcome self w ((m w).1.2, (m w).2).
Proof.
  intros H. destruct (H w) as (a & out & ->). simpl.
  split; [reflexivity|]. left. eauto.
Qed.

Lemma save_no_cut (self : BookmarkManager) (w : World) :
  (forall n, write_fault w <> WriteCut n) ->
  _save_bookmarks self w = (true, saved_world self w) \/
  _save_bookmarks self w = (false, set_stdout (stdout w ++ [ErrSave]) w).
Proof.
  intros Hcut. unfold _save_bookmarks, write_text, saved_world. io_unfold.
  destruct (write_fault w) as [| |n] eqn:E; simpl; auto.
  now destruct (Hcut n).
Qed.

Lemma add_bookmark_outcome `{UrlParser} self url title tag w :
  (forall n, write_fault w <> WriteCut n) ->
  outcome self w ((add_bookmark self url title tag w).1.2,
                  (add_bookmark self url title tag w).2).
Proof.
  intros Hcut. unfold add_bookmark.
  repeat case_match; try solve [apply prints_only_outcome; prints].
  unfold mbind, IO_bind.
  match goal with |- context [_save_bookmarks ?s w] =>
    destruct (save_no_cut s w Hcut) as [-> | ->] end; simpl.
  - split; [reflexivity|]. right. eexists. reflexivity.
  - rewrite removelast_last. split; [reflexivity|]. left.
    split; [now destruct self | eauto].
Qed.

Lemma delete_bookmark_outcome self identifier delete_type w :
  (forall n, write_fault w <> WriteCut n) ->
  outcome self w ((delete_bookmark self identifier delete_type w).1.2,
                  (delete_bookmark self identifier delete_type w).2).
Proof.
  intros Hcut.
  destruct (decide (PyStr.strip identifier = EmptyString)) as [Hid|Hid].
  { rewrite delete_bookmark_blank by exact Hid. split; [reflexivity|]. left. eauto. }
  destruct (decide (to_remove self identifier delete_type = [])) as [HR|HR].
  { rewrite delete_bookmark_not_found by assumption. split; [reflexivity|]. left. eauto. }
  rewrite delete_bookmark_found by assumption. cbv zeta.
  destruct (split_deleted _ _) as [[nb cnt] info].
  match goal with |- context [_save_bookmarks ?s ?w0] =>
    destruct (save_no_cut s w0) as [-> | ->]; [exact Hcut | |] end; simpl.
  - split; [reflexivity|]. right. eexists. reflexivity.
  - split; [reflexivity|]. left. split; [reflexivity|]. eexists. reflexivity.
Qed.

Lemma call_outcome {A} self (m : Method A) w :
  outcome self w ((m w).1.2, (m w).2) ->
  outcome self w ((call m w).1.2, (call m w).2).
Proof.
  unfold call, mbind, IO_bind. now destruct (m w) as [[a self'] w'].
Qed.

Lemma dispatch_outcome `{UrlParser} manager cmd w :
  (forall n, write_fault w <> WriteCut n) ->
  outcome manager w ((dispatch manager cmd w).1.2, (dispatch manager cmd w).2).
Proof.
  intros Hcut. destruct cmd; simpl; repeat case_match;
    try apply call_outcome;
    first
      [ now apply add_bookmark_outcome
      | now apply delete_bookmark_outcome
      | apply prints_only_outcome;
        first
          [ apply list_bookmarks_prints | apply search_bookmarks_prints
          | apply list_tags_prints | apply list_titles_prints
          | apply show_stats_prints | apply prints_only_ret ] ].
Qed.

(** The next run starts where this one ended.  When files can be read and
    no write breaks off half-way, the manager [main] ends with, whatever the
    command and whether or not it succeeded, is the manager a new process
    builds from the backing file as [main] leaves it. *)
Theorem next_run_sees_last_state `{UrlParser} (cmd : Command) (file : string)
    (w w' : World) (manager : BookmarkManager) :
  read_fault w = false ->
  (forall n, write_fault w <> WriteCut n) ->
  main (mkArgs (Some cmd) file) w = (Some manager, w') ->
  (init (data_file manager) w').1 = manager.
Proof.
  intros Hr Hcut.
  unfold main, bookmarks_path, get_home, mbind, IO_bind, mret, IO_ret.
  cbn [command]. cbv beta iota.
  set (path := path_join (home w) ".bookmarks.json").
  destruct (load_only_prints path w) as (c0 & o1 & Hload).
  assert (Hinit : init path w = (mkManager path c0, set_stdout (stdout w ++ o1) w)).
  { unfold init, mbind, IO_bind, mret, IO_ret. now rewrite Hload. }
  rewrite Hinit.
  set (w1 := set_stdout (stdout w ++ o1) w).
  pose proof (dispatch_outcome (mkManager path c0) cmd w1 Hcut) as [Hfile Hout].
  destruct (dispatch (mkManager path c0) cmd w1) as [[u m] w2]. simpl in Hfile, Hout.
  intros [= <- <-]. rewrite Hfile. simpl.
  assert (Hagain : forall c, (_load_bookmarks path w2).1 = c ->
                             (init path w2).1 = mkManager path c).
  { intros c <-. unfold init, mbind, IO_bind, mret, IO_ret.
    now destruct (_load_bookmarks path w2). }
  destruct Hout as [[-> (o & ->)] | (o & ->)].
  - apply Hagain. unfold w1. rewrite !load_stdout_indep. now rewrite Hload.
  - rewrite (Hagain (bookmarks m)); [destruct m; simpl in *; congruence|].
    rewrite load_stdout_indep. rewrite <- Hfile.
    now rewrite load_after_save by exact Hr.
Qed.

Lemma next_run_sees_last_state_witness :
  exists w',
    main (mkArgs (Some (CmdAdd "https://a.com" "A" "t")) default_file) demo_world =
      (Some holder, w') /\
    (init (data_file holder) w').1 = holder.
Proof.
  eexists. split; [vm_compute; reflexivity|].
  match goal with |- (init _ ?w).1 = _ => set (w' := w) end.
  apply (next_run_sees_last_state (CmdAdd "https://a.com" "A" "t") default_file
           demo_world w' holder); [reflexivity | discriminate | vm_compute; reflexivity].
Defined.

(** ** Operations in sequence *)

(** Deleting what was just added gives the collection back.  After a
    successful add of a url that reads the same with and without its
    surrounding white space, case apart, a delete by that url, when its save
    goes through, succeeds and leaves the manager exactly as it was before
    the add. *)
Theorem add_then_delete_restores `{UrlParser} self u t g w self1 w1 :
  add_bookmark self u t g w = (true, self1, w1) ->
  PyStr.lower (PyStr.strip u) = PyStr.lower u ->
  PyStr.strip u <> EmptyString ->
  write_fault w1 = NoFault ->
  exists w2,
    delete_bookmark self1 u "url" w1 = (true, self, w2) /\
    fs w2 !! data_file self = Some (Json.dump (bookmarks self)).
Proof.
  intros E Hs Hne Hw1.
  apply add_bookmark_true_inv in E as ((_ & Hf & _) & -> & _).
  pose proof (proj1 (find_url_from_None 0 _ _) Hf) as Hnone.
  destruct (delete_by_url_filter
              (set_bookmarks (bookmarks self ++ [new_record u t g]) self)
              u w1 Hne Hw1) as (w2 & Hrun & _ & Hfile).
  { exists (new_record u t g). split; [apply elem_of_app; right; left | exact Hs]. }
  assert (Hkept : filter (fun b => PyStr.lower (url b) <> PyStr.lower u)
                    (bookmarks self ++ [new_record u t g]) = bookmarks self).
  { rewrite filter_app, filter_cons, decide_False by (simpl; intros Hn; now apply Hn).
    rewrite filter_nil, app_nil_r. apply filter_all. exact Hnone. }
  simpl in Hrun, Hfile. rewrite Hkept in Hrun, Hfile.
  exists w2. split; [|exact Hfile].
  rewrite Hrun. now destruct self.
Qed.

Lemma add_then_delete_restores_witness :
  exists w1 w2,
    add_bookmark holder "https://b.org" "B" "t" demo_world =
      (true, mkManager demo_path [site_a; mkBookmark "https://b.org" "B" "t"], w1) /\
    delete_bookmark (mkManager demo_path [site_a; mkBookmark "https://b.org" "B" "t"])
      "https://b.org" "url" w1 = (true, holder, w2).
Proof.
  eexists. 
  assert (E : add_bookmark holder "https://b.org" "B" "t" demo_world =
              (true, mkManager demo_path [site_a; mkBookmark "https://b.org" "B" "t"],
               (add_bookmark holder "https://b.org" "B" "t" demo_world).2))
    by (vm_compute; reflexivity).
  destruct (add_then_delete_restores _ _ _ _ _ _ _ E) as (w2 & Hrun & _);
    [reflexivity | vm_compute; discriminate | reflexivity |].
  exists w2. split; [exact E | exact Hrun].
Defined.

(** A second delete finds nothing.  After a successful delete in url mode,
    the same delete is rejected with NotFound and changes neither the
    manager nor any file. *)
Theorem delete_twice_not_found self identifier w self1 w1 :
  delete_bookmark self identifier "url" w = (true, self1, w1) ->
  forall w2,
    delete_bookmark self1 identifier "url" w2 =
      (false, self1, set_stdout (stdout w2 ++ [ErrNotFound "url" identifier]) w2).
Proof.
  intros E w2.
  destruct (decide (PyStr.strip identifier = EmptyString)) as [Hid|Hid].
  { rewrite delete_bookmark_blank in E by exact Hid. discriminate. }
  destruct (decide (to_remove self identifier "url" = [])) as [HR|HR].
  { rewrite delete_bookmark_not_found in E by assumption. discriminate. }
  assert (Hw : write_fault w = NoFault).
  { rewrite delete_bookmark_found in E by assumption. cbv zeta in E.
    destruct (split_deleted _ _) as [[nb cnt] info].
    destruct (_save_bookmarks _ _) as [[] w'] eqn:Es; [|discriminate].
    now apply save_true_inv in Es as [Hw _]. }
  assert (Hex : exists b, b ∈ bookmarks self /\ PyStr.lower (url b) = PyStr.lower identifier).
  { unfold to_remove, _find_bookmark_by_url in HR. simpl in HR.
    destruct (find_url_from 0 (bookmarks self) identifier) as [i|] eqn:Ef; [|contradiction].
    apply find_url_from_Some in Ef as (pre & b & post & Hc & _ & Hb & _).
    exists b. split; [|exact Hb]. rewrite Hc. apply elem_of_app. right. left. }
  destruct (delete_by_url_filter self identifier w Hid Hw Hex) as (w' & Hrun & _).
  rewrite Hrun in E. injection E as <- _.
  apply delete_bookmark_not_found; [exact Hid|].
  apply to_remove_url_none. simpl. intros b Hb.
  now apply list_elem_of_filter in Hb as [Hb _].
Qed.

Lemma delete_twice_not_found_witness :
  exists w1,
    delete_bookmark holder "https://a.com" "url" demo_world = (true, empty_manager, w1) /\
    delete_bookmark empty_manager "https://a.com" "url" w1 =
      (false, empty_manager,
       set_stdout (stdout w1 ++ [ErrNotFound "url" "https://a.com"]) w1).
Proof.
  eexists. split; [vm_compute; reflexivity|].
  match goal with |- delete_bookmark _ _ _ ?w = _ => set (w1 := w) end.
  apply (delete_twice_not_found holder "https://a.com" demo_world empty_manager w1).
  vm_compute. reflexivity.
Defined.

(** ** The file [main] uses *)

(** Whatever the home directory, the path [main] builds its manager on is
    not the name the [--file] option shows as its default. *)
Theorem default_file_never_used (w : World) :
  (bookmarks_path w).1 <> default_file.
Proof.
  unfold bookmarks_path, get_home, mbind, IO_bind, mret, IO_ret. simpl.
  intros E. apply (f_equal String.length) in E. revert E.
  unfold path_join, default_file. simpl PyStr.startswith at 1. cbv iota.
  destruct (_ || _); rewrite !JsonFacts.length_append; simpl; lia.
Qed.
